(** * spy-alert-bot: a shallow embedding of [bot.py]

    The script is embedded function by function.  Python values are modelled
    as follows.

    - [str] is a [string] holding the UTF-8 encoding of the text.  Splitting
      on [":"], stripping ["/"], concatenation and every test on ASCII
      characters are byte-exact under this encoding.  The two places where
      CPython consults its Unicode tables ([int]/[float] on a text with
      non-ASCII characters, [str.upper]) are fields of [interpreter].
    - [int] is [Z]; [float] is a binary64 value, [spec_float].
    - an exception is a value of [exn]; a computation that may raise returns
      a [result].
    - the outside world (clock, HTTP server, mail server) is a record of
      oracles, [world]; what the script does to it is a list of [event]s. *)

From Stdlib Require Import ZArith String Ascii List Bool Lia SpecFloat DecimalString.
From stdpp Require Import base option gmap strings.

Local Open Scope string_scope.
Local Open Scope Z_scope.

(** ** Exceptions and results *)

Inductive exn :=
| ValueError
| TypeError
| AttributeError
| OverflowError
| HTTPError (status : option Z)   (* requests.HTTPError, with e.response *)
| JSONDecodeError                 (* raised by r.json() *)
| OtherError (name : string).     (* connection, timeout and SMTP errors *)

Inductive result (A : Type) :=
| Ok (a : A)
| Raise (e : exn).
Arguments Ok {A} a.
Arguments Raise {A} e.

#[global] Instance result_ret : MRet result := λ A a, Ok a.
#[global] Instance result_bind : MBind result := λ A B k r,
  match r with
  | Ok a => k a
  | Raise e => Raise e
  end.

(** ** Characters and strings *)

Definition code (c : ascii) : Z := Z.of_N (N_of_ascii c).

Definition is_ascii_char (c : ascii) : bool := code c <? 128.

(* Py_ISSPACE: the C-locale white space *)
Definition py_isspace (c : ascii) : bool :=
  ((9 <=? code c) && (code c <=? 13)) || (code c =? 32).

(* Py_ISDIGIT *)
Definition py_isdigit (c : ascii) : bool :=
  (48 <=? code c) && (code c <=? 57).

Definition digit_value (c : ascii) : Z := code c - 48.

Fixpoint str_forall (p : ascii → bool) (s : string) : bool :=
  match s with
  | EmptyString => true
  | String c r => p c && str_forall p r
  end.

(* PyUnicode_IS_ASCII *)
Definition is_ascii (s : string) : bool := str_forall is_ascii_char s.

Fixpoint skip_space (s : string) : string :=
  match s with
  | String c r => if py_isspace c then skip_space r else s
  | EmptyString => s
  end.

(* truthiness of a str *)
Definition truthy (s : string) : bool :=
  match s with
  | EmptyString => false
  | String _ _ => true
  end.

(* hhmm.split(":") for a one-character separator: every occurrence cuts *)
Fixpoint split (sep : ascii) (s : string) : list string :=
  match s with
  | EmptyString => [EmptyString]
  | String c r =>
      if Ascii.eqb c sep then EmptyString :: split sep r
      else match split sep r with
           | x :: xs => String c x :: xs
           | [] => [String c EmptyString]
           end
  end.

(* s.rstrip("/") *)
Fixpoint rstrip (ch : ascii) (s : string) : string :=
  match s with
  | EmptyString => EmptyString
  | String c r =>
      match rstrip ch r with
      | EmptyString => if Ascii.eqb c ch then EmptyString else String c EmptyString
      | r' => String c r'
      end
  end.

(* needle in hay *)
Fixpoint contains (needle hay : string) : bool :=
  String.prefix needle hay ||
  match hay with
  | EmptyString => false
  | String _ r => contains needle r
  end.

(* str(n) of an int *)
Definition str_of_int (n : Z) : string := NilZero.string_of_int (Z.to_int n).

Definition nl : string := String "010" EmptyString.

(* where the text goes on after a line boundary of str.splitlines at its
   head: CR LF, CR, LF, VT, FF, FS, GS, RS, U+0085, U+2028, U+2029 *)
Definition after_line_break (s : string) : option string :=
  match s with
  | String "013" (String "010" r) => Some r
  | String "013" r | String "010" r | String "011" r | String "012" r
  | String "028" r | String "029" r | String "030" r => Some r
  | String "194" (String "133" r) => Some r
  | String "226" (String "128" (String "168" r))
  | String "226" (String "128" (String "169" r)) => Some r
  | _ => None
  end.

(* len(value.splitlines()) > 1: a line boundary with text after it *)
Fixpoint several_lines (s : string) : bool :=
  match s with
  | EmptyString => false
  | String _ r =>
      match after_line_break s with
      | Some (String _ _) => true
      | _ => several_lines r
      end
  end.

(** ** The interpreter

    What the script takes from the Python runtime and is not fixed by the
    script itself. *)

Record interpreter := {
  (* sys.get_int_max_str_digits(): 4300 by default, 0 switches the limit off *)
  int_max_str_digits : Z;
  (* _PyUnicode_TransformDecimalAndSpaceToASCII on a text with non-ASCII
     characters: Unicode spaces become " ", Unicode decimal digits their
     ASCII digit, and the text is cut with "?" at any other non-ASCII
     character *)
  decimal_and_space_to_ascii : string → string;
  (* str.upper() on a text with non-ASCII characters *)
  unicode_upper : string → string;
}.

Section Bot.

Variable py : interpreter.

(** *** int(str), base 10 *)

(* long_from_string_base: the run of digits and single underscores.
   [prev_us]: the previous character was an underscore. *)
Fixpoint scan_digits (prev_us : bool) (acc : Z) (ndigits : Z) (s : string)
  : option (Z * Z * string) :=
  match s with
  | String c r =>
      if py_isdigit c then scan_digits false (10 * acc + digit_value c) (ndigits + 1) r
      else if Ascii.eqb c "_" then
        if prev_us then None else scan_digits true acc ndigits r
      else if prev_us then None else Some (acc, ndigits, s)
  | EmptyString => if prev_us then None else Some (acc, ndigits, s)
  end.

Definition to_ascii_text (s : string) : string :=
  if is_ascii s then s else decimal_and_space_to_ascii py s.

Definition over_digit_limit (ndigits : Z) : bool :=
  (640 <? ndigits) && (0 <? int_max_str_digits py) && (int_max_str_digits py <? ndigits).

Definition py_int (s : string) : result Z :=
  let t := skip_space (to_ascii_text s) in
  let '(neg, t) :=
    match t with
    | String "+" r => (false, r)
    | String "-" r => (true, r)
    | _ => (false, t)
    end in
  match t with
  | String "_" _ => Raise ValueError
  | _ =>
      match scan_digits false 0 0 t with
      | None => Raise ValueError
      | Some (v, n, rest) =>
          if n =? 0 then Raise ValueError
          else if negb (truthy (skip_space rest)) then
            if over_digit_limit n then Raise ValueError
            else Ok (if neg then - v else v)
          else Raise ValueError
      end
  end.

(** *** float(x) and int(float)

    A float is a binary64 value.  A decimal literal is rounded to the
    nearest one, ties to even, as CPython's [_Py_dg_strtod] does; a value
    too large becomes an infinity. *)

Definition prec : Z := 53.
Definition emax : Z := 1024.

(* the binary64 nearest to m * 10^e *)
Definition round_decimal (neg : bool) (m : Z) (e : Z) : spec_float :=
  if m <=? 0 then S754_zero neg
  else if 0 <=? e then binary_round prec emax neg (Z.to_pos (m * 10 ^ e)) 0
  else
    let d := 10 ^ (- e) in
    let sh := Z.max 0 (Z.log2 d + 64 - Z.log2 m) in
    let '(q, r) := Z.div_eucl (m * 2 ^ sh) d in
    let loc := if r =? 0 then loc_Exact else loc_Inexact (2 * r ?= d) in
    binary_round_aux prec emax neg q (- sh) loc.

(* a run of decimal digits: value so far, number of digits, what follows *)
Fixpoint scan_decimal (acc : Z) (ndigits : Z) (s : string) : Z * Z * string :=
  match s with
  | String c r =>
      if py_isdigit c then scan_decimal (10 * acc + digit_value c) (ndigits + 1) r
      else (acc, ndigits, s)
  | EmptyString => (acc, ndigits, s)
  end.

Definition take_sign (s : string) : bool * string :=
  match s with
  | String "+" r => (false, r)
  | String "-" r => (true, r)
  | _ => (false, s)
  end.

Definition ascii_lower (c : ascii) : ascii :=
  if (65 <=? code c) && (code c <=? 90) then ascii_of_N (N_of_ascii c + 32) else c.

Definition ascii_upper (c : ascii) : ascii :=
  if (97 <=? code c) && (code c <=? 122) then ascii_of_N (N_of_ascii c - 32) else c.

Fixpoint str_map (f : ascii → ascii) (s : string) : string :=
  match s with
  | EmptyString => EmptyString
  | String c r => String (f c) (str_map f r)
  end.

(* _Py_parse_inf_or_nan, on the whole of [s] *)
Definition parse_inf_or_nan (s : string) : result spec_float :=
  let '(neg, t) := take_sign s in
  let l := str_map ascii_lower t in
  if String.eqb l "inf" || String.eqb l "infinity" then Ok (S754_infinity neg)
  else if String.eqb l "nan" then Ok S754_nan
  else Raise ValueError.

(* the exponent part: None when [s] is not wholly "e", a sign, digits *)
Definition parse_exponent (s : string) : option Z :=
  match s with
  | EmptyString => Some 0
  | String c r =>
      if Ascii.eqb c "e" || Ascii.eqb c "E" then
        let '(eneg, t) := take_sign r in
        match scan_decimal 0 0 t with
        | (v, n, EmptyString) => if n =? 0 then None else Some (if eneg then - v else v)
        | _ => None
        end
      else None
  end.

(* PyOS_string_to_double, on the whole of [s] *)
Definition parse_float (s : string) : result spec_float :=
  let '(neg, t) := take_sign s in
  let '(ip, n1, t1) := scan_decimal 0 0 t in
  let '(m, n2, t2) :=
    match t1 with
    | String "." r =>
        let '(m, n, t2) := scan_decimal ip 0 r in (m, n, t2)
    | _ => (ip, 0, t1)
    end in
  if n1 + n2 =? 0 then parse_inf_or_nan s
  else
    match parse_exponent t2 with
    | Some e => Ok (round_decimal neg m (e - n2))
    | None => Raise ValueError
    end.

(* _Py_string_to_number_with_underscores: an underscore stands only between
   two digits; the text without them, or None *)
Fixpoint drop_underscores (prev : ascii) (s : string) : option string :=
  match s with
  | EmptyString => if Ascii.eqb prev "_" then None else Some EmptyString
  | String c r =>
      if Ascii.eqb c "_" then
        if py_isdigit prev then drop_underscores c r else None
      else if Ascii.eqb prev "_" && negb (py_isdigit c) then None
      else String c <$> drop_underscores c r
  end.

Fixpoint rstrip_space (s : string) : string :=
  match s with
  | EmptyString => EmptyString
  | String c r =>
      match rstrip_space r with
      | EmptyString => if py_isspace c then EmptyString else String c EmptyString
      | r' => String c r'
      end
  end.

(* float(str) *)
Definition float_of_str (s : string) : result spec_float :=
  match skip_space (to_ascii_text s) with
  | EmptyString => Raise ValueError
  | String c r =>
      let t := String c (rstrip_space r) in
      if str_forall (λ c, negb (Ascii.eqb c "_")) t then parse_float t
      else match drop_underscores "000" t with
           | Some t' => parse_float t'
           | None => Raise ValueError
           end
  end.

(* float(int) *)
Definition float_of_int (n : Z) : result spec_float :=
  match binary_normalize prec emax n 0 false with
  | S754_infinity _ => Raise OverflowError
  | f => Ok f
  end.

(* int(float): towards zero *)
Definition int_of_float (f : spec_float) : result Z :=
  match f with
  | S754_zero _ => Ok 0
  | S754_infinity _ => Raise OverflowError
  | S754_nan => Raise ValueError
  | S754_finite s m e =>
      let v := Z.shiftl (Zpos m) e in
      Ok (if s then - v else v)
  end.

(** *** Decoded JSON *)

#[warnings="-register-all"] Inductive json :=
| JNull
| JBool (b : bool)
| JInt (n : Z)
| JFloat (f : spec_float)
| JStr (s : string)
| JList (l : list json)
| JDict (d : gmap string json).

(* pos.get(key, dflt) *)
Definition json_get (pos : json) (key : string) (dflt : json) : result json :=
  match pos with
  | JDict d => Ok (default dflt (d !! key))
  | _ => Raise AttributeError
  end.

(* float(x) *)
Definition py_float (x : json) : result spec_float :=
  match x with
  | JStr s => float_of_str s
  | JFloat f => Ok f
  | JInt n => float_of_int n
  | JBool b => Ok (if b then S754_finite false 4503599627370496 (-52) else S754_zero false)
  | JNull | JList _ | JDict _ => Raise TypeError
  end.

(** *** Configuration: the module-level globals *)

Record config := {
  ALPACA_KEY_ID : string;
  ALPACA_SECRET_KEY : string;
  ALPACA_BASE_URL : string;
  TO_EMAIL : string;
  FROM_EMAIL : string;
  SMTP_HOST : string;
  SMTP_PORT : Z;
  SMTP_USER : string;
  SMTP_PASS : string;
  SYMBOL : string;
  MAX_TRADES_PER_DAY : Z;
  WINDOW_START_UTC : string;
  WINDOW_END_UTC : string;
  MODE : string;
}.

Definition getenv (env : gmap string string) (name dflt : string) : string :=
  default dflt (env !! name).

Definition load_config (env : gmap string string) : result config :=
  port ← py_int (getenv env "SMTP_PORT" "587");
  trades ← py_int (getenv env "MAX_TRADES_PER_DAY" "1");
  Ok {| ALPACA_KEY_ID := getenv env "ALPACA_KEY_ID" "";
         ALPACA_SECRET_KEY := getenv env "ALPACA_SECRET_KEY" "";
         ALPACA_BASE_URL := getenv env "ALPACA_BASE_URL" "https://paper-api.alpaca.markets";
         TO_EMAIL := getenv env "ALERT_TO_EMAIL" "";
         FROM_EMAIL := getenv env "ALERT_FROM_EMAIL" "";
         SMTP_HOST := getenv env "SMTP_HOST" "";
         SMTP_PORT := port;
         SMTP_USER := getenv env "SMTP_USER" "";
         SMTP_PASS := getenv env "SMTP_PASS" "";
         SYMBOL := getenv env "SYMBOL" "SPY";
         MAX_TRADES_PER_DAY := trades;
         WINDOW_START_UTC := getenv env "WINDOW_START_UTC" "14:35";
         WINDOW_END_UTC := getenv env "WINDOW_END_UTC" "16:00";
         MODE := getenv env "MODE" "DRY_RUN" |}.

Section Run.

Variable cfg : config.

(** *** Helpers *)

(* the fields of a datetime the script reads *)
Record datetime := { hour : Z; minute : Z }.

Definition datetime_ok (dt : datetime) : bool :=
  (0 <=? hour dt) && (hour dt <? 24) && (0 <=? minute dt) && (minute dt <? 60).

Definition hhmm_to_minutes (hhmm : string) : result Z :=
  match split ":" hhmm with
  | [h; m] =>
      hv ← py_int h;
      mv ← py_int m;
      Ok (hv * 60 + mv)
  | _ => Raise ValueError
  end.

(* a <= t <= b evaluates b only when a <= t holds *)
Definition in_window_utc (dt : datetime) : result bool :=
  let t := hour dt * 60 + minute dt in
  a ← hhmm_to_minutes (WINDOW_START_UTC cfg);
  if a <=? t then
    b ← hhmm_to_minutes (WINDOW_END_UTC cfg);
    Ok (t <=? b)
  else Ok false.

(** *** The outside world and the effects of a run *)

Record Response := {
  status_code : Z;
  json_body : option json;   (* what r.json() decodes; None: not JSON *)
}.

Record EmailMessage := {
  hdr_Subject : string;
  hdr_From : string;
  hdr_To : string;
  content : string;
}.

Inductive event :=
| Stdout (line : string)
| Stderr (line : string)
| HttpGet (url : string) (headers : list (string * string)) (timeout : Z)
| SmtpConnect (host : string) (port : Z) (timeout : Z)
| SmtpStartTls
| SmtpLogin (user password : string)
| SmtpSendMessage (msg : EmailMessage)
| SmtpQuit.

Record world := {
  clock : datetime;                                                (* datetime.now(timezone.utc) *)
  http_get : string → list (string * string) → result Response;   (* requests.get *)
  smtp_connect : string → Z → option exn;                          (* smtplib.SMTP(host, port) *)
  smtp_starttls : option exn;
  smtp_login : string → string → option exn;
  smtp_send_message : EmailMessage → option exn;
  smtp_quit : option exn;                                          (* SMTP.__exit__ *)
}.

Variable w : world.

(* a computation that appends to the trace of events and may raise *)
Definition io (A : Type) : Type := list event → result A * list event.

#[local] Instance io_ret : MRet io := λ A a tr, (Ok a, tr).
#[local] Instance io_bind : MBind io := λ A B k m tr,
  match m tr with
  | (Ok a, tr') => k a tr'
  | (Raise e, tr') => (Raise e, tr')
  end.

Definition lift {A} (r : result A) : io A := λ tr, (r, tr).
Definition raise {A} (e : exn) : io A := lift (Raise e).
Definition emit (ev : event) : io () := λ tr, (Ok (), (tr ++ [ev])%list).
Definition outcome (o : option exn) : io () :=
  match o with
  | Some e => raise e
  | None => mret ()
  end.

(* try: body except ...: handler *)
Definition try_except {A} (body : io A) (handler : exn → io A) : io A := λ tr,
  match body tr with
  | (Ok a, tr') => (Ok a, tr')
  | (Raise e, tr') => handler e tr'
  end.

(* with resource: body.  The exit action runs on both paths; when it raises,
   its exception is the one that propagates. *)
Definition with_exit {A} (body : io A) (exit : io ()) : io A := λ tr,
  match body tr with
  | (r, tr') =>
      match exit tr' with
      | (Ok _, tr'') => (r, tr'')
      | (Raise e, tr'') => (Raise e, tr'')
      end
  end.

Definition print (line : string) : io () := emit (Stdout line).
Definition print_stderr (line : string) : io () := emit (Stderr line).

Definition now_utc : io datetime := mret (clock w).

Definition alpaca_headers : list (string * string) :=
  [("APCA-API-KEY-ID", ALPACA_KEY_ID cfg);
   ("APCA-API-SECRET-KEY", ALPACA_SECRET_KEY cfg)].

(* r.raise_for_status() *)
Definition raise_for_status (r : Response) : result () :=
  if (400 <=? status_code r) && (status_code r <? 600)
  then Raise (HTTPError (Some (status_code r)))
  else Ok ().

(* r.json() *)
Definition response_json (r : Response) : result json :=
  match json_body r with
  | Some v => Ok v
  | None => Raise JSONDecodeError
  end.

Definition alpaca_get (path : string) : io json :=
  let url := rstrip "/" (ALPACA_BASE_URL cfg) +:+ path in
  emit (HttpGet url alpaca_headers 20);;
  r ← lift (http_get w url alpaca_headers);
  lift (raise_for_status r);;
  lift (response_json r).

Definition get_open_position_qty (symbol : string) : io Z :=
  try_except
    (pos ← alpaca_get ("/v2/positions/" +:+ symbol);
     lift (qty ← json_get pos "qty" (JStr "0");
           f ← py_float qty;
           int_of_float f))
    (λ e,
       match e with
       | HTTPError (Some 404) => mret 0
       | _ => raise e
       end).

(* msg[name] = value under email.policy.default *)
Definition header_value (value : string) : result string :=
  if several_lines value then Raise ValueError else Ok value.

Definition send_email (subject body : string) : io () :=
  if negb (truthy (TO_EMAIL cfg) && truthy (FROM_EMAIL cfg) && truthy (SMTP_HOST cfg)
           && truthy (SMTP_USER cfg) && truthy (SMTP_PASS cfg))
  then print_stderr "Missing email/SMTP env vars; cannot send."
  else
    subj ← lift (header_value subject);
    from ← lift (header_value (FROM_EMAIL cfg));
    to ← lift (header_value (TO_EMAIL cfg));
    let msg := {| hdr_Subject := subj; hdr_From := from; hdr_To := to; content := body |} in
    emit (SmtpConnect (SMTP_HOST cfg) (SMTP_PORT cfg) 30);;
    outcome (smtp_connect w (SMTP_HOST cfg) (SMTP_PORT cfg));;
    with_exit
      (emit SmtpStartTls;;
       outcome (smtp_starttls w);;
       emit (SmtpLogin (SMTP_USER cfg) (SMTP_PASS cfg));;
       outcome (smtp_login w (SMTP_USER cfg) (SMTP_PASS cfg));;
       emit (SmtpSendMessage msg);;
       outcome (smtp_send_message w msg))
      (emit SmtpQuit;;
       outcome (smtp_quit w)).

Definition buy_alert (qty : Z) : string * string :=
  let subj := "BUY SPY — ACTION REQUIRED" in
  let body :=
    "BUY " +:+ SYMBOL cfg +:+ " NOW" +:+ nl +:+
    "Qty: " +:+ str_of_int qty +:+ nl +:+
    "Order: Market" +:+ nl +:+
    "Max Risk: $50 (paper)" +:+ nl +:+
    nl +:+
    "Open Alpaca and BUY within 5 minutes." +:+ nl in
  (subj, body).

Definition sell_alert (qty : Z) (reason : string) : string * string :=
  let subj := "SELL SPY — ACTION REQUIRED" in
  let body :=
    "SELL " +:+ SYMBOL cfg +:+ " NOW" +:+ nl +:+
    "Qty: " +:+ str_of_int qty +:+ nl +:+
    "Reason: " +:+ reason +:+ nl +:+
    nl +:+
    "Open Alpaca and SELL immediately." +:+ nl in
  (subj, body).

(* s.upper() *)
Definition py_upper (s : string) : string :=
  if is_ascii s then str_map ascii_upper s else unicode_upper py s.

(** *** Decision logic *)

Definition decide_and_notify : io () :=
  dt ← now_utc;
  inside ← lift (in_window_utc dt);
  if negb inside then print "Outside window; exiting."
  else
    qty_open ← get_open_position_qty (SYMBOL cfg);
    if String.eqb (py_upper (MODE cfg)) "DRY_RUN" then
      if (qty_open =? 0) && (minute dt =? 40) then
        let '(subj, body) := buy_alert 1 in
        send_email subj body;;
        print "Sent DRY_RUN BUY."
      else if (0 <? qty_open) && (minute dt =? 55) then
        let '(subj, body) := sell_alert qty_open "DRY_RUN exit" in
        send_email subj body;;
        print "Sent DRY_RUN SELL."
      else print "DRY_RUN: no message this minute."
    else print "LIVE: strategy not enabled; no alerts.".

End Run.

(* the script run as a program: the module body, then decide_and_notify() *)
Definition main (env : gmap string string) (w : world) : result () * list event :=
  match load_config env with
  | Ok cfg => decide_and_notify cfg w []
  | Raise e => (Raise e, [])
  end.

End Bot.

#[global] Existing Instances io_ret io_bind.

(** ** Reading aids for the statements *)

(* an interpreter for closed examples: the default digit limit; its Unicode
   fields are exact on texts whose non-ASCII characters are neither spaces,
   digits nor cased letters, and are not consulted on ASCII texts *)
Definition plain : interpreter :=
  {| int_max_str_digits := 4300;
     decimal_and_space_to_ascii := λ _, "?";
     unicode_upper := λ s, s |}.

(* a configuration with every mail setting present *)
Definition example_config (window_start window_end mode : string) : config :=
  {| ALPACA_KEY_ID := "key";
     ALPACA_SECRET_KEY := "secret";
     ALPACA_BASE_URL := "https://paper-api.alpaca.markets";
     TO_EMAIL := "trader@example.org";
     FROM_EMAIL := "bot@example.org";
     SMTP_HOST := "smtp.example.org";
     SMTP_PORT := 587;
     SMTP_USER := "bot";
     SMTP_PASS := "hunter2";
     SYMBOL := "SPY";
     MAX_TRADES_PER_DAY := 1;
     WINDOW_START_UTC := window_start;
     WINDOW_END_UTC := window_end;
     MODE := mode |}.

(* a world whose mail server accepts everything *)
Definition example_world (hh mm : Z) (reply : result Response) : world :=
  {| clock := {| hour := hh; minute := mm |};
     http_get := λ _ _, reply;
     smtp_connect := λ _ _, None;
     smtp_starttls := None;
     smtp_login := λ _ _, None;
     smtp_send_message := λ _, None;
     smtp_quit := None |}.

Definition positions_url (cfg : config) (symbol : string) : string :=
  rstrip "/" (ALPACA_BASE_URL cfg) +:+ "/v2/positions/" +:+ symbol.

(* "HH:MM": two digits, a colon, two digits *)
Definition well_formed_hhmm (s : string) : bool :=
  match s with
  | String h1 (String h2 (String c (String m1 (String m2 EmptyString)))) =>
      py_isdigit h1 && py_isdigit h2 && Ascii.eqb c ":" && py_isdigit m1 && py_isdigit m2
  | _ => false
  end.

(* H*60+M of an "HH:MM" text, read off its four digits *)
Definition spec_minutes (s : string) : Z :=
  match s with
  | String h1 (String h2 (String _ (String m1 (String m2 _)))) =>
      (10 * digit_value h1 + digit_value h2) * 60 + (10 * digit_value m1 + digit_value m2)
  | _ => 0
  end.

Definition minute_of_day (dt : datetime) : Z := hour dt * 60 + minute dt.

(* the number a run of decimal digits denotes *)
Fixpoint decimal_of (acc : Z) (s : string) : Z :=
  match s with
  | EmptyString => acc
  | String c r => decimal_of (10 * acc + digit_value c) r
  end.

(* "<digits>": a non-empty run of ASCII digits *)
Definition digits (s : string) : bool := truthy s && str_forall py_isdigit s.

Definition strlen (s : string) : Z := Z.of_nat (String.length s).

Definition is_Ok {A} (r : result A) : Prop := ∃ a, r = Ok a.

Definition is_mail_event (ev : event) : bool :=
  match ev with
  | SmtpConnect _ _ _ | SmtpStartTls | SmtpLogin _ _ | SmtpSendMessage _ | SmtpQuit => true
  | _ => false
  end.

(* the mail traffic of a trace *)
Definition mail_events (tr : list event) : list event := List.filter is_mail_event tr.

(* the messages handed to the mail server *)
Definition sent_messages (tr : list event) : list EmailMessage :=
  omap (λ ev, match ev with SmtpSendMessage m => Some m | _ => None end) tr.

Definition float_is_negative (f : spec_float) : bool :=
  match f with
  | S754_zero s | S754_infinity s | S754_finite s _ _ => s
  | S754_nan => false
  end.

(* equality of ASCII texts up to the case of letters *)
Definition eq_ignore_case (a b : string) : bool :=
  String.eqb (str_map ascii_lower a) (str_map ascii_lower b).

Definition is_http_error (e : exn) : bool :=
  match e with
  | HTTPError _ => true
  | _ => false
  end.

(* the GET of the decision step *)
Definition fetch_event (cfg : config) : event :=
  HttpGet (positions_url cfg (SYMBOL cfg)) (alpaca_headers cfg) 20.

(* the quantity read off a decoded body *)
Definition qty_of_json (py : interpreter) (pos : json) : result Z :=
  qty ← json_get pos "qty" (JStr "0");
  f ← py_float py qty;
  int_of_float f.

(* the result of the fetch, given what requests.get produced *)
Definition fetched (py : interpreter) (reply : result Response) : result Z :=
  match reply with
  | Raise (HTTPError (Some 404)) => Ok 0
  | Raise e => Raise e
  | Ok r =>
      if (400 <=? status_code r) && (status_code r <? 600) then
        if status_code r =? 404 then Ok 0 else Raise (HTTPError (Some (status_code r)))
      else
        pos ← response_json r;
        qty_of_json py pos
  end.

(* the message send_email builds *)
Definition message_of (cfg : config) (subject body : string) : EmailMessage :=
  {| hdr_Subject := subject; hdr_From := FROM_EMAIL cfg; hdr_To := TO_EMAIL cfg; content := body |}.

(* the variables the script reads, each with the default os.getenv is given *)
Definition defaults : list (string * string) :=
  [("ALPACA_KEY_ID", ""); ("ALPACA_SECRET_KEY", "");
   ("ALPACA_BASE_URL", "https://paper-api.alpaca.markets");
   ("ALERT_TO_EMAIL", ""); ("ALERT_FROM_EMAIL", ""); ("SMTP_HOST", "");
   ("SMTP_PORT", "587"); ("SMTP_USER", ""); ("SMTP_PASS", "");
   ("SYMBOL", "SPY"); ("MAX_TRADES_PER_DAY", "1");
   ("WINDOW_START_UTC", "14:35"); ("WINDOW_END_UTC", "16:00"); ("MODE", "DRY_RUN")].

(* how often a character occurs in a text *)
Fixpoint occurrences (ch : ascii) (s : string) : nat :=
  match s with
  | EmptyString => 0%nat
  | String c r => ((if Ascii.eqb c ch then 1 else 0) + occurrences ch r)%nat
  end.

(* the configuration with another ALPACA_BASE_URL *)
Definition set_base_url (cfg : config) (url : string) : config :=
  {| ALPACA_KEY_ID := ALPACA_KEY_ID cfg;
     ALPACA_SECRET_KEY := ALPACA_SECRET_KEY cfg;
     ALPACA_BASE_URL := url;
     TO_EMAIL := TO_EMAIL cfg;
     FROM_EMAIL := FROM_EMAIL cfg;
     SMTP_HOST := SMTP_HOST cfg;
     SMTP_PORT := SMTP_PORT cfg;
     SMTP_USER := SMTP_USER cfg;
     SMTP_PASS := SMTP_PASS cfg;
     SYMBOL := SYMBOL cfg;
     MAX_TRADES_PER_DAY := MAX_TRADES_PER_DAY cfg;
     WINDOW_START_UTC := WINDOW_START_UTC cfg;
     WINDOW_END_UTC := WINDOW_END_UTC cfg;
     MODE := MODE cfg |}.

(* the requests of a trace *)
Definition http_gets (tr : list event) : list event :=
  List.filter (λ ev, match ev with HttpGet _ _ _ => true | _ => false end) tr.

(* all five mail settings are present *)
Definition mail_configured (cfg : config) : bool :=
  truthy (TO_EMAIL cfg) && truthy (FROM_EMAIL cfg) && truthy (SMTP_HOST cfg)
  && truthy (SMTP_USER cfg) && truthy (SMTP_PASS cfg).

(** ** Characters *)

Lemma digit_facts c :
  py_isdigit c = true →
  is_ascii_char c = true ∧ py_isspace c = false ∧ Ascii.eqb c "_" = false ∧
  Ascii.eqb c ":" = false ∧ Ascii.eqb c "+" = false ∧ Ascii.eqb c "-" = false ∧
  Ascii.eqb c "." = false ∧ 0 ≤ digit_value c ≤ 9.
Proof.
  destruct c as [[] [] [] [] [] [] [] []]; vm_compute; intros H;
    try discriminate H; repeat split; discriminate.
Qed.

Lemma digits_ascii s : str_forall py_isdigit s = true → is_ascii s = true.
Proof.
  induction s as [|c r IH]; simpl; [done|].
  intros [Hc Hr]%andb_true_iff. unfold is_ascii in *. simpl.
  destruct (digit_facts c Hc) as (-> & _). by rewrite IH.
Qed.

(** ** int on a run of digits *)

Lemma scan_digits_all s acc n :
  str_forall py_isdigit s = true →
  scan_digits false acc n s = Some (decimal_of acc s, n + strlen s, EmptyString).
Proof.
  revert acc n. induction s as [|c r IH]; intros acc n; simpl.
  - intros _. unfold strlen. simpl. by rewrite Z.add_0_r.
  - intros [Hc Hr]%andb_true_iff. rewrite Hc, IH by done.
    unfold strlen. simpl String.length. do 3 f_equal. lia.
Qed.

Lemma py_int_digits py s :
  digits s = true →
  over_digit_limit py (strlen s) = false →
  py_int py s = Ok (decimal_of 0 s).
Proof.
  unfold digits. intros [Hne Hd]%andb_true_iff Hlim.
  unfold py_int, to_ascii_text. rewrite (digits_ascii s Hd).
  destruct s as [|c r]; [done|].
  pose proof Hd as Hd'. simpl in Hd'. apply andb_true_iff in Hd' as [Hc Hr].
  destruct (digit_facts c Hc) as (_ & Hsp & Hus & _ & Hplus & Hminus & _).
  simpl skip_space. rewrite Hsp.
  assert (Hsign : match String c r with
                  | String "+" r0 => (false, r0)
                  | String "-" r0 => (true, r0)
                  | _ => (false, String c r)
                  end = (false, String c r)).
  { destruct c as [[] [] [] [] [] [] [] []]; try done. }
  rewrite Hsign.
  assert (Hnus : ∀ X Y : result Z,
            match String c r with String "_" _ => X | _ => Y end = Y).
  { intros X Y. destruct c as [[] [] [] [] [] [] [] []]; try done. }
  rewrite Hnus, scan_digits_all by done.
  rewrite Z.add_0_l.
  assert ((strlen (String c r) =? 0) = false) as ->.
  { apply Z.eqb_neq. unfold strlen. simpl String.length. lia. }
  simpl. by rewrite Hlim.
Qed.

(** ** Splitting at the colon *)

Lemma split_no_sep s :
  str_forall py_isdigit s = true → split ":" s = [s].
Proof.
  induction s as [|c r IH]; simpl; [done|].
  intros [Hc Hr]%andb_true_iff.
  destruct (digit_facts c Hc) as (_ & _ & _ & -> & _). by rewrite IH.
Qed.

Lemma split_digits h m :
  str_forall py_isdigit h = true → str_forall py_isdigit m = true →
  split ":" (h +:+ ":" +:+ m) = [h; m].
Proof.
  intros Hh Hm. induction h as [|c r IH]; simpl.
  - by rewrite split_no_sep.
  - simpl in Hh. apply andb_true_iff in Hh as [Hc Hr].
    destruct (digit_facts c Hc) as (_ & _ & _ & -> & _). by rewrite IH.
Qed.

Lemma hhmm_to_minutes_digits py h m :
  digits h = true → digits m = true →
  over_digit_limit py (strlen h) = false →
  over_digit_limit py (strlen m) = false →
  hhmm_to_minutes py (h +:+ ":" +:+ m) = Ok (decimal_of 0 h * 60 + decimal_of 0 m).
Proof.
  intros Hh Hm Lh Lm. unfold hhmm_to_minutes.
  pose proof Hh as Hh'. pose proof Hm as Hm'.
  unfold digits in Hh', Hm'.
  apply andb_true_iff in Hh' as [_ Hh'], Hm' as [_ Hm'].
  rewrite split_digits by done.
  by rewrite !py_int_digits.
Qed.

Lemma short_under_limit py n : n ≤ 640 → over_digit_limit py n = false.
Proof.
  intros Hn. unfold over_digit_limit.
  destruct (640 <? n) eqn:E; [apply Z.ltb_lt in E; lia | done].
Qed.

Lemma hhmm_to_minutes_well_formed py s :
  well_formed_hhmm s = true → hhmm_to_minutes py s = Ok (spec_minutes s).
Proof.
  destruct s as [|h1 [|h2 [|c [|m1 [|m2 [|]]]]]]; try done.
  cbn [well_formed_hhmm]. intros H.
  apply andb_true_iff in H as [H Hm2]. apply andb_true_iff in H as [H Hm1].
  apply andb_true_iff in H as [H Hc]. apply andb_true_iff in H as [Hh1 Hh2].
  apply Ascii.eqb_eq in Hc as ->.
  change (String h1 (String h2 (String ":" (String m1 (String m2 EmptyString)))))
    with (String h1 (String h2 EmptyString) +:+ ":" +:+ String m1 (String m2 EmptyString)).
  rewrite hhmm_to_minutes_digits.
  - cbn [decimal_of spec_minutes]. do 2 f_equal; lia.
  - unfold digits. cbn [truthy str_forall]. by rewrite Hh1, Hh2.
  - unfold digits. cbn [truthy str_forall]. by rewrite Hm1, Hm2.
  - by apply short_under_limit.
  - by apply short_under_limit.
Qed.

(** ** The window gate *)

(** C1: for every timestamp and every pair of well-formed "HH:MM"
    boundaries, the window gate returns, without raising, true exactly when
    start_minutes <= minute_of_day(t) <= end_minutes, both ends included,
    each boundary being converted by hhmm_to_minutes to H*60+M and
    minute_of_day(t) being hour*60+minute. *)
Theorem in_window_utc_inclusive py cfg dt :
  well_formed_hhmm (WINDOW_START_UTC cfg) = true →
  well_formed_hhmm (WINDOW_END_UTC cfg) = true →
  hhmm_to_minutes py (WINDOW_START_UTC cfg) = Ok (spec_minutes (WINDOW_START_UTC cfg)) ∧
  hhmm_to_minutes py (WINDOW_END_UTC cfg) = Ok (spec_minutes (WINDOW_END_UTC cfg)) ∧
  ∃ b, in_window_utc py cfg dt = Ok b ∧
       (b = true ↔
        spec_minutes (WINDOW_START_UTC cfg) ≤ minute_of_day dt ≤ spec_minutes (WINDOW_END_UTC cfg)).
Proof.
  intros Hs He.
  pose proof (hhmm_to_minutes_well_formed py _ Hs) as Es.
  pose proof (hhmm_to_minutes_well_formed py _ He) as Ee.
  split; [done|]. split; [done|].
  unfold in_window_utc, minute_of_day. rewrite Es. simpl.
  destruct (_ <=? _) eqn:Ha.
  - rewrite Ee. simpl. eexists; split; [done|].
    apply Z.leb_le in Ha. rewrite Z.leb_le. lia.
  - apply Z.leb_gt in Ha. exists false. split; [done|]. split; [done|lia].
Qed.

Lemma in_window_utc_inclusive_witness :
  let cfg := example_config "14:35" "16:00" "DRY_RUN" in
  let dt := {| hour := 16; minute := 0 |} in
  well_formed_hhmm (WINDOW_START_UTC cfg) = true ∧
  well_formed_hhmm (WINDOW_END_UTC cfg) = true ∧
  ∃ b, in_window_utc plain cfg dt = Ok b ∧
       (b = true ↔
        spec_minutes (WINDOW_START_UTC cfg) ≤ minute_of_day dt ≤ spec_minutes (WINDOW_END_UTC cfg)).
Proof.
  intros cfg dt. split; [reflexivity|]. split; [reflexivity|].
  apply (in_window_utc_inclusive plain cfg dt); reflexivity.
Defined.

(** ** The position fetcher *)

Lemma parse_float_raises s e : parse_float s = Raise e → e = ValueError.
Proof.
  unfold parse_float, parse_inf_or_nan.
  repeat case_match; congruence.
Qed.

Lemma float_of_str_raises py s e : float_of_str py s = Raise e → e = ValueError.
Proof.
  unfold float_of_str.
  repeat case_match; first [congruence | apply parse_float_raises].
Qed.

Lemma py_float_raises py x e : py_float py x = Raise e → is_http_error e = false.
Proof.
  destruct x; simpl; try (intros [= <-]; done); try done.
  - unfold float_of_int. repeat case_match; intros [= <-]; done.
  - intros ->%float_of_str_raises. done.
Qed.

Lemma int_of_float_raises f e : int_of_float f = Raise e → is_http_error e = false.
Proof. destruct f; simpl; intros [= <-]; done. Qed.

Section Fetch.

Variable py : interpreter.
Variable cfg : config.
Variable w : world.

Lemma qty_of_json_raises pos e : qty_of_json py pos = Raise e → is_http_error e = false.
Proof.
  unfold qty_of_json, json_get.
  destruct pos; simpl; try (intros [= <-]; done).
  destruct (py_float py _) as [f|e'] eqn:Ef; simpl.
  - apply int_of_float_raises.
  - intros [= <-]. by eapply py_float_raises.
Qed.

Lemma get_open_position_qty_eq symbol tr :
  get_open_position_qty py cfg w symbol tr =
  (fetched py (http_get w (positions_url cfg symbol) (alpaca_headers cfg)),
   (tr ++ [HttpGet (positions_url cfg symbol) (alpaca_headers cfg) 20])%list).
Proof.
  unfold get_open_position_qty, try_except, alpaca_get, fetched, positions_url.
  unfold qty_of_json, mbind, io_bind, emit, lift, raise, raise_for_status. simpl.
  destruct (http_get w _ _) as [r|e]; simpl.
  - destruct (_ && _) eqn:E; simpl.
    + destruct (status_code r =? 404) eqn:E4.
      * apply Z.eqb_eq in E4. by rewrite E4.
      * apply Z.eqb_neq in E4.
        destruct (status_code r) as [|p|p]; try done.
        do 9 (try (destruct p as [p|p|]; try done)).
    + unfold response_json. destruct (json_body r) as [pos|]; simpl; [|done].
      pose proof (qty_of_json_raises pos) as Hq. unfold qty_of_json, mbind in Hq.
      destruct (result_bind _ _ _ _) as [q|e]; [done|].
      specialize (Hq e eq_refl). by destruct e.
  - destruct e as [| | | |[[|p|p]|]| |]; try done.
    do 9 (try (destruct p as [p|p|]; try done)).
Qed.

End Fetch.

Lemma int_of_float_sign f q :
  int_of_float f = Ok q → float_is_negative f = false → 0 ≤ q.
Proof.
  destruct f as [s|s| |s m e]; simpl; try done.
  - intros [= <-]. done.
  - intros [= <-] ->. apply Z.shiftl_nonneg. done.
Qed.

(** C2: when the position request is answered with status 404, whatever the
    body, get_open_position_qty returns exactly 0 and raises nothing; its
    only effect is the one GET. *)
Theorem get_open_position_qty_404 py cfg w symbol tr r :
  http_get w (positions_url cfg symbol) (alpaca_headers cfg) = Ok r →
  status_code r = 404 →
  get_open_position_qty py cfg w symbol tr =
  (Ok 0, (tr ++ [HttpGet (positions_url cfg symbol) (alpaca_headers cfg) 20])%list).
Proof.
  intros Hr H404. rewrite get_open_position_qty_eq, Hr.
  unfold fetched. by rewrite H404.
Qed.

Lemma get_open_position_qty_404_witness :
  let cfg := example_config "14:35" "16:00" "DRY_RUN" in
  let r := {| status_code := 404; json_body := None |} in
  let w := example_world 15 40 (Ok r) in
  http_get w (positions_url cfg "SPY") (alpaca_headers cfg) = Ok r ∧
  status_code r = 404 ∧
  get_open_position_qty plain cfg w "SPY" [] =
  (Ok 0, [HttpGet "https://paper-api.alpaca.markets/v2/positions/SPY"
            [("APCA-API-KEY-ID", "key"); ("APCA-API-SECRET-KEY", "secret")] 20]).
Proof.
  intros cfg r w. split; [reflexivity|]. split; [reflexivity|].
  apply (get_open_position_qty_404 plain cfg w "SPY" [] r); reflexivity.
Defined.

(** C9: when the position request is answered with a 2xx status and a JSON
    object without a "qty" field, get_open_position_qty returns 0 and
    raises nothing: the lookup falls back to "0". *)
Theorem get_open_position_qty_no_qty py cfg w symbol tr r d :
  http_get w (positions_url cfg symbol) (alpaca_headers cfg) = Ok r →
  200 ≤ status_code r < 300 →
  json_body r = Some (JDict d) →
  d !! "qty" = None →
  json_get (JDict d) "qty" (JStr "0") = Ok (JStr "0") ∧
  get_open_position_qty py cfg w symbol tr =
  (Ok 0, (tr ++ [HttpGet (positions_url cfg symbol) (alpaca_headers cfg) 20])%list).
Proof.
  intros Hr Hst Hbody Hd. split.
  - simpl. by rewrite Hd.
  - rewrite get_open_position_qty_eq, Hr. unfold fetched.
    assert ((400 <=? status_code r) && (status_code r <? 600) = false) as ->.
    { apply andb_false_iff. left. apply Z.leb_gt. lia. }
    unfold response_json, qty_of_json. rewrite Hbody. simpl. by rewrite Hd.
Qed.

Lemma get_open_position_qty_no_qty_witness :
  let cfg := example_config "14:35" "16:00" "DRY_RUN" in
  let d : gmap string json := {[ "symbol" := JStr "SPY" ]} in
  let r := {| status_code := 200; json_body := Some (JDict d) |} in
  let w := example_world 15 40 (Ok r) in
  http_get w (positions_url cfg "SPY") (alpaca_headers cfg) = Ok r ∧
  200 ≤ status_code r < 300 ∧
  json_body r = Some (JDict d) ∧
  d !! "qty" = None ∧
  get_open_position_qty plain cfg w "SPY" [] =
  (Ok 0, [HttpGet "https://paper-api.alpaca.markets/v2/positions/SPY"
            [("APCA-API-KEY-ID", "key"); ("APCA-API-SECRET-KEY", "secret")] 20]).
Proof.
  intros cfg d r w.
  split; [reflexivity|]. split; [simpl; lia|]. split; [reflexivity|].
  split; [reflexivity|].
  apply (get_open_position_qty_no_qty plain cfg w "SPY" [] r d);
    [reflexivity | simpl; lia | reflexivity | reflexivity].
Defined.

(** C7, as stated, fails: a response reporting a short position, qty "-5",
    is accepted without error and -5 is returned. *)
Lemma negative_qty_returned :
  let cfg := example_config "14:35" "16:00" "DRY_RUN" in
  let r := {| status_code := 200; json_body := Some (JDict {[ "qty" := JStr "-5" ]}) |} in
  let w := example_world 15 55 (Ok r) in
  ∃ q tr, get_open_position_qty plain cfg w (SYMBOL cfg) [] = (Ok q, tr) ∧ ¬ 0 ≤ q.
Proof.
  intros cfg r w. exists (-5), [HttpGet (positions_url cfg "SPY") (alpaca_headers cfg) 20].
  split; [vm_compute; reflexivity | lia].
Qed.

(** C7, amended: the quantity is not kept non-negative.  For every response
    accepted without error the value returned is non-negative unless the
    response is a JSON object whose "qty" converts to a negative float;
    then that float, cut towards zero, is returned. *)
Theorem get_open_position_qty_sign py cfg w symbol tr q tr' :
  get_open_position_qty py cfg w symbol tr = (Ok q, tr') →
  0 ≤ q ∨
  ∃ r d x f,
    http_get w (positions_url cfg symbol) (alpaca_headers cfg) = Ok r ∧
    json_body r = Some (JDict d) ∧ d !! "qty" = Some x ∧
    py_float py x = Ok f ∧ float_is_negative f = true ∧ int_of_float f = Ok q.
Proof.
  rewrite get_open_position_qty_eq. intros [= Hq _]. revert Hq.
  unfold fetched.
  destruct (http_get w _ _) as [r|e] eqn:Hr.
  - destruct (_ && _).
    + destruct (_ =? 404); [|done]. intros [= <-]. by left.
    + unfold response_json, qty_of_json, json_get.
      destruct (json_body r) as [[| | | | | |d]|] eqn:Hbody; simpl; try done.
      destruct (d !! "qty") as [x|] eqn:Hx; simpl.
      * destruct (py_float py x) as [f|] eqn:Hf; simpl; [|done].
        intros Hq. destruct (float_is_negative f) eqn:Hneg.
        -- right. by exists r, d, x, f.
        -- left. by eapply int_of_float_sign.
      * intros [= <-]. by left.
  - destruct e as [| | | |[[|p|p]|]| |]; try done.
    do 9 (try (destruct p as [p|p|]; try done)).
    intros [= <-]. by left.
Qed.

Lemma get_open_position_qty_sign_witness :
  let cfg := example_config "14:35" "16:00" "DRY_RUN" in
  let r := {| status_code := 200; json_body := Some (JDict {[ "qty" := JStr "3.0" ]}) |} in
  let w := example_world 15 55 (Ok r) in
  let tr' := [HttpGet (positions_url cfg "SPY") (alpaca_headers cfg) 20] in
  get_open_position_qty plain cfg w "SPY" [] = (Ok 3, tr') ∧
  (0 ≤ 3 ∨
   ∃ r d x f,
     http_get w (positions_url cfg "SPY") (alpaca_headers cfg) = Ok r ∧
     json_body r = Some (JDict d) ∧ d !! "qty" = Some x ∧
     py_float plain x = Ok f ∧ float_is_negative f = true ∧ int_of_float f = Ok 3).
Proof.
  intros cfg r w tr'. split; [vm_compute; reflexivity|].
  apply (get_open_position_qty_sign plain cfg w "SPY" [] 3 tr').
  vm_compute; reflexivity.
Defined.

(** ** The notifier *)

Lemma mail_events_app tr tr' : mail_events (tr ++ tr') = (mail_events tr ++ mail_events tr')%list.
Proof. apply List.filter_app. Qed.

Lemma sent_messages_app tr tr' :
  sent_messages (tr ++ tr') = (sent_messages tr ++ sent_messages tr')%list.
Proof. apply omap_app. Qed.

Lemma header_value_ok v x : header_value v = Ok x → x = v.
Proof. unfold header_value. destruct (several_lines v); congruence. Qed.

(* one call of send_email hands at most one message to the mail server, and
   then the one built from its arguments *)
Lemma send_email_messages cfg w subject body tr :
  ∃ sent,
    sent_messages (send_email cfg w subject body tr).2 = (sent_messages tr ++ sent)%list ∧
    (sent = [] ∨ sent = [message_of cfg subject body]).
Proof.
  assert (∀ tr', tr' = sent_messages tr →
                 ∃ sent, tr' = (sent_messages tr ++ sent)%list ∧
                         (sent = [] ∨ sent = [message_of cfg subject body])) as none.
  { intros tr' ->. exists []. by rewrite app_nil_r; auto. }
  unfold send_email. destruct (negb _).
  { apply none. simpl. rewrite sent_messages_app. simpl. by rewrite app_nil_r. }
  unfold mbind, io_bind, lift, emit, outcome, with_exit, raise, lift, mret, io_ret.
  destruct (header_value subject) as [s|] eqn:Es; [|by apply none].
  destruct (header_value (FROM_EMAIL cfg)) as [f|] eqn:Ef; [|by apply none].
  destruct (header_value (TO_EMAIL cfg)) as [t|] eqn:Et; [|by apply none].
  apply header_value_ok in Es as ->, Ef as ->, Et as ->.
  fold (message_of cfg subject body).
  destruct (smtp_connect w _ _); simpl.
  { apply none. rewrite sent_messages_app. simpl. by rewrite app_nil_r. }
  destruct (smtp_starttls w); simpl.
  { apply none. destruct (smtp_quit w); simpl;
      rewrite !sent_messages_app; simpl; by rewrite !app_nil_r. }
  destruct (smtp_login w _ _); simpl.
  { apply none. destruct (smtp_quit w); simpl;
      rewrite !sent_messages_app; simpl; by rewrite !app_nil_r. }
  exists [message_of cfg subject body]. split; [|by right].
  destruct (smtp_send_message w _), (smtp_quit w); simpl;
    rewrite !sent_messages_app; simpl; by rewrite !app_nil_r.
Qed.

(** C4: whenever one of the five mail settings (recipient, sender, host,
    user, password) is empty, send_email opens no mail session and sends
    nothing: it writes the diagnostic to the error stream and returns
    normally. *)
Theorem send_email_skipped cfg w subject body tr :
  TO_EMAIL cfg = "" ∨ FROM_EMAIL cfg = "" ∨ SMTP_HOST cfg = "" ∨
  SMTP_USER cfg = "" ∨ SMTP_PASS cfg = "" →
  send_email cfg w subject body tr =
    (Ok (), (tr ++ [Stderr "Missing email/SMTP env vars; cannot send."])%list) ∧
  mail_events (send_email cfg w subject body tr).2 = mail_events tr.
Proof.
  intros H.
  assert (send_email cfg w subject body tr =
          (Ok (), (tr ++ [Stderr "Missing email/SMTP env vars; cannot send."])%list)) as E.
  { unfold send_email.
    destruct H as [-> | [-> | [-> | [-> | ->]]]]; simpl;
      rewrite ?andb_false_r; reflexivity. }
  split; [done|]. rewrite E. simpl. rewrite mail_events_app. simpl. by rewrite app_nil_r.
Qed.

Lemma send_email_skipped_witness :
  let cfg :=
    {| ALPACA_KEY_ID := "key"; ALPACA_SECRET_KEY := "secret";
       ALPACA_BASE_URL := "https://paper-api.alpaca.markets";
       TO_EMAIL := "trader@example.org"; FROM_EMAIL := "bot@example.org";
       SMTP_HOST := "smtp.example.org"; SMTP_PORT := 587;
       SMTP_USER := "bot"; SMTP_PASS := "";
       SYMBOL := "SPY"; MAX_TRADES_PER_DAY := 1;
       WINDOW_START_UTC := "14:35"; WINDOW_END_UTC := "16:00"; MODE := "DRY_RUN" |} in
  let w := example_world 15 40 (Ok {| status_code := 404; json_body := None |}) in
  (TO_EMAIL cfg = "" ∨ FROM_EMAIL cfg = "" ∨ SMTP_HOST cfg = "" ∨
   SMTP_USER cfg = "" ∨ SMTP_PASS cfg = "") ∧
  send_email cfg w "subject" "body" [] =
    (Ok (), [Stderr "Missing email/SMTP env vars; cannot send."]).
Proof.
  intros cfg w. split; [do 4 right; reflexivity|].
  apply (send_email_skipped cfg w "subject" "body" []). do 4 right. reflexivity.
Defined.

(** ** The decision step *)

Lemma contains_app_r needle a b :
  contains needle b = true → contains needle (a +:+ b) = true.
Proof.
  intros H. induction a as [|c a IH]; simpl; [done|].
  rewrite IH. apply orb_true_r.
Qed.

Lemma ascii_upper_is c u :
  In u ["D"; "R"; "Y"; "_"; "U"; "N"]%char →
  ascii_upper c = u ↔ ascii_lower c = ascii_lower u.
Proof.
  intros Hu. simpl in Hu.
  destruct Hu as [<-|[<-|[<-|[<-|[<-|[<-|[]]]]]]];
    destruct c as [[] [] [] [] [] [] [] []]; vm_compute; split; congruence.
Qed.

(** X18: on an ASCII text the mode test MODE.upper() == "DRY_RUN" is
    equality with "DRY_RUN" up to the case of letters: "dry_run" and
    "Dry_Run" select test mode, every other ASCII text selects live mode. *)
Lemma py_upper_dry_run py s :
  is_ascii s = true →
  py_upper py s = "DRY_RUN" ↔ eq_ignore_case s "DRY_RUN" = true.
Proof.
  intros Ha. unfold py_upper, eq_ignore_case. rewrite Ha, String.eqb_eq.
  change (str_map ascii_lower "DRY_RUN") with "dry_run".
  destruct s as [|c1 [|c2 [|c3 [|c4 [|c5 [|c6 [|c7 [|c8 s]]]]]]]]; simpl;
    try (split; discriminate).
  pose proof (λ c u H, proj1 (ascii_upper_is c u H)) as Hup.
  pose proof (λ c u H, proj2 (ascii_upper_is c u H)) as Hlo.
  split; intros [= H1 H2 H3 H4 H5 H6 H7].
  - rewrite (Hup c1 "D"%char ltac:(simpl; auto 10) H1), (Hup c2 "R"%char ltac:(simpl; auto 10) H2),
      (Hup c3 "Y"%char ltac:(simpl; auto 10) H3), (Hup c4 "_"%char ltac:(simpl; auto 10) H4),
      (Hup c5 "R"%char ltac:(simpl; auto 10) H5), (Hup c6 "U"%char ltac:(simpl; auto 10) H6),
      (Hup c7 "N"%char ltac:(simpl; auto 10) H7).
    reflexivity.
  - rewrite (Hlo c1 "D"%char ltac:(simpl; auto 10) H1), (Hlo c2 "R"%char ltac:(simpl; auto 10) H2),
      (Hlo c3 "Y"%char ltac:(simpl; auto 10) H3), (Hlo c4 "_"%char ltac:(simpl; auto 10) H4),
      (Hlo c5 "R"%char ltac:(simpl; auto 10) H5), (Hlo c6 "U"%char ltac:(simpl; auto 10) H6),
      (Hlo c7 "N"%char ltac:(simpl; auto 10) H7).
    reflexivity.
Qed.

Section Decide.

Variable py : interpreter.
Variable cfg : config.
Variable w : world.

(* inside the window: the one GET, then the branch taken on its result *)
Lemma decide_and_notify_inside tr :
  in_window_utc py cfg (clock w) = Ok true →
  decide_and_notify py cfg w tr =
  match fetched py (http_get w (positions_url cfg (SYMBOL cfg)) (alpaca_headers cfg)) with
  | Raise e => (Raise e, (tr ++ [fetch_event cfg])%list)
  | Ok qty_open =>
      (if String.eqb (py_upper py (MODE cfg)) "DRY_RUN" then
         if (qty_open =? 0) && (minute (clock w) =? 40) then
           send_email cfg w (buy_alert cfg 1).1 (buy_alert cfg 1).2;;
           print "Sent DRY_RUN BUY."
         else if (0 <? qty_open) && (minute (clock w) =? 55) then
           send_email cfg w (sell_alert cfg qty_open "DRY_RUN exit").1
                            (sell_alert cfg qty_open "DRY_RUN exit").2;;
           print "Sent DRY_RUN SELL."
         else print "DRY_RUN: no message this minute."
       else print "LIVE: strategy not enabled; no alerts.") (tr ++ [fetch_event cfg])%list
  end.
Proof.
  intros Hin. unfold decide_and_notify, now_utc.
  unfold mbind at 1 2 3, io_bind at 1 2 3, mret, io_ret, lift.
  rewrite Hin. cbn [negb]. rewrite get_open_position_qty_eq.
  by destruct (fetched _ _).
Qed.

Lemma decide_and_notify_outside tr :
  in_window_utc py cfg (clock w) = Ok false →
  decide_and_notify py cfg w tr = (Ok (), (tr ++ [Stdout "Outside window; exiting."])%list).
Proof.
  intros Hin. unfold decide_and_notify, now_utc.
  unfold mbind at 1 2, io_bind at 1 2, mret, io_ret, lift.
  by rewrite Hin.
Qed.

Lemma decide_and_notify_window_error tr e :
  in_window_utc py cfg (clock w) = Raise e →
  decide_and_notify py cfg w tr = (Raise e, tr).
Proof.
  intros Hin. unfold decide_and_notify, now_utc.
  unfold mbind at 1 2, io_bind at 1 2, mret, io_ret, lift.
  by rewrite Hin.
Qed.

(** C5: in live mode, that is when MODE.upper() is not "DRY_RUN", the run
    attempts no email: for every fetched quantity and every minute inside
    the window the decision step only prints the live-mode notice, and on
    every path of the run the mail traffic stays what it was. *)
Theorem live_mode_no_email tr :
  py_upper py (MODE cfg) ≠ "DRY_RUN" →
  (∀ qty_open tr1,
     in_window_utc py cfg (clock w) = Ok true →
     get_open_position_qty py cfg w (SYMBOL cfg) tr = (Ok qty_open, tr1) →
     decide_and_notify py cfg w tr =
       (Ok (), (tr1 ++ [Stdout "LIVE: strategy not enabled; no alerts."])%list)) ∧
  mail_events (decide_and_notify py cfg w tr).2 = mail_events tr ∧
  sent_messages (decide_and_notify py cfg w tr).2 = sent_messages tr.
Proof.
  intros Hmode. apply String.eqb_neq in Hmode.
  split.
  - intros q tr1 Hin. rewrite get_open_position_qty_eq. intros [= Hq <-].
    rewrite decide_and_notify_inside, Hq, Hmode by done. reflexivity.
  - destruct (in_window_utc py cfg (clock w)) as [[]|e] eqn:Hin.
    + rewrite decide_and_notify_inside by done.
      destruct (fetched _ _); rewrite ?Hmode; simpl;
        rewrite ?mail_events_app, ?sent_messages_app; simpl; by rewrite ?app_nil_r.
    + rewrite decide_and_notify_outside by done. simpl.
      rewrite mail_events_app, sent_messages_app. simpl. by rewrite !app_nil_r.
    + by rewrite (decide_and_notify_window_error tr e).
Qed.

(** C3, amended: in test mode, with fetched quantity 5, minute 55 and the
    timestamp inside the window, the run calls send_email exactly once, with
    subject "SELL SPY — ACTION REQUIRED" and a body containing "Qty: 5" and
    "Reason: DRY_RUN exit", and then prints its notice; at most that one
    message reaches the mail server. *)
Theorem dry_run_sell_alert tr tr1 :
  py_upper py (MODE cfg) = "DRY_RUN" →
  in_window_utc py cfg (clock w) = Ok true →
  minute (clock w) = 55 →
  get_open_position_qty py cfg w (SYMBOL cfg) tr = (Ok 5, tr1) →
  let subj := "SELL SPY — ACTION REQUIRED" in
  let body := (sell_alert cfg 5 "DRY_RUN exit").2 in
  (sell_alert cfg 5 "DRY_RUN exit").1 = subj ∧
  contains "Qty: 5" body = true ∧
  contains "Reason: DRY_RUN exit" body = true ∧
  decide_and_notify py cfg w tr =
    (send_email cfg w subj body;; print "Sent DRY_RUN SELL.") tr1 ∧
  ∃ sent,
    sent_messages (decide_and_notify py cfg w tr).2 = (sent_messages tr ++ sent)%list ∧
    (sent = [] ∨ sent = [message_of cfg subj body]).
Proof.
  intros Hmode Hin Hmin Hq subj body.
  rewrite get_open_position_qty_eq in Hq. injection Hq as Hq <-.
  assert (decide_and_notify py cfg w tr =
          (send_email cfg w subj body;; print "Sent DRY_RUN SELL.")
            (tr ++ [fetch_event cfg])%list) as E.
  { rewrite decide_and_notify_inside, Hq, Hmode, Hmin by done. reflexivity. }
  split; [reflexivity|]. split.
  { unfold body, sell_alert. simpl. do 2 apply contains_app_r. reflexivity. }
  split.
  { unfold body, sell_alert. simpl. do 2 apply contains_app_r. reflexivity. }
  split; [exact E|].
  rewrite E. unfold mbind, io_bind, print, emit.
  destruct (send_email_messages cfg w subj body (tr ++ [fetch_event cfg])%list)
    as (sent & Hs & Hsent).
  exists sent. split; [|done].
  rewrite sent_messages_app in Hs. simpl in Hs. rewrite app_nil_r in Hs.
  destruct (send_email cfg w subj body _) as [[[]|e] tr2]; simpl in *; [|done].
  rewrite sent_messages_app. simpl. by rewrite app_nil_r.
Qed.

(** C6, amended: when the position request is answered with status 500, or
    any status from 400 to 599 other than 404, get_open_position_qty raises
    the HTTP error, and the run aborts with it after the one GET, no mail
    traffic having been attempted. *)
Theorem http_error_aborts_run tr r :
  http_get w (positions_url cfg (SYMBOL cfg)) (alpaca_headers cfg) = Ok r →
  400 ≤ status_code r < 600 →
  status_code r ≠ 404 →
  get_open_position_qty py cfg w (SYMBOL cfg) tr =
    (Raise (HTTPError (Some (status_code r))), (tr ++ [fetch_event cfg])%list) ∧
  (in_window_utc py cfg (clock w) = Ok true →
   decide_and_notify py cfg w tr =
     (Raise (HTTPError (Some (status_code r))), (tr ++ [fetch_event cfg])%list)) ∧
  mail_events (decide_and_notify py cfg w tr).2 = mail_events tr.
Proof.
  intros Hr Hst H404.
  assert (fetched py (http_get w (positions_url cfg (SYMBOL cfg)) (alpaca_headers cfg)) =
          Raise (HTTPError (Some (status_code r)))) as Hf.
  { rewrite Hr. unfold fetched.
    assert ((400 <=? status_code r) && (status_code r <? 600) = true) as ->.
    { apply andb_true_iff. split; [apply Z.leb_le | apply Z.ltb_lt]; lia. }
    by apply Z.eqb_neq in H404 as ->. }
  split; [by rewrite get_open_position_qty_eq, Hf|].
  split; [intros Hin; by rewrite decide_and_notify_inside, Hf|].
  destruct (in_window_utc py cfg (clock w)) as [[]|e] eqn:Hin.
  - rewrite decide_and_notify_inside, Hf by done. simpl.
    rewrite mail_events_app. simpl. by rewrite app_nil_r.
  - rewrite decide_and_notify_outside by done. simpl.
    rewrite mail_events_app. simpl. by rewrite app_nil_r.
  - by rewrite (decide_and_notify_window_error tr e).
Qed.

End Decide.

(** C3, as stated, fails: in that scenario the one SELL email has the stated
    subject and "Qty: 5", but its reason line reads "Reason: DRY_RUN exit";
    the body does not contain "Reason: test exit". *)
Lemma sell_reason_is_not_test_exit :
  let cfg := example_config "14:35" "16:00" "DRY_RUN" in
  let r := {| status_code := 200; json_body := Some (JDict {[ "qty" := JStr "5" ]}) |} in
  let w := example_world 15 55 (Ok r) in
  py_upper plain (MODE cfg) = "DRY_RUN" ∧
  in_window_utc plain cfg (clock w) = Ok true ∧
  minute (clock w) = 55 ∧
  (get_open_position_qty plain cfg w (SYMBOL cfg) []).1 = Ok 5 ∧
  ∃ msg,
    sent_messages (decide_and_notify plain cfg w []).2 = [msg] ∧
    hdr_Subject msg = "SELL SPY — ACTION REQUIRED" ∧
    contains "Qty: 5" (content msg) = true ∧
    contains "Reason: test exit" (content msg) = false.
Proof.
  intros cfg r w. repeat split; try (vm_compute; reflexivity).
  exists (message_of cfg (sell_alert cfg 5 "DRY_RUN exit").1 (sell_alert cfg 5 "DRY_RUN exit").2).
  repeat split; vm_compute; reflexivity.
Qed.

Lemma dry_run_sell_alert_witness :
  let cfg := example_config "14:35" "16:00" "dry_run" in
  let r := {| status_code := 200; json_body := Some (JDict {[ "qty" := JStr "5" ]}) |} in
  let w := example_world 15 55 (Ok r) in
  let tr1 := [HttpGet (positions_url cfg (SYMBOL cfg)) (alpaca_headers cfg) 20] in
  py_upper plain (MODE cfg) = "DRY_RUN" ∧
  in_window_utc plain cfg (clock w) = Ok true ∧
  minute (clock w) = 55 ∧
  get_open_position_qty plain cfg w (SYMBOL cfg) [] = (Ok 5, tr1) ∧
  contains "Reason: DRY_RUN exit" (sell_alert cfg 5 "DRY_RUN exit").2 = true.
Proof.
  intros cfg r w tr1.
  split; [reflexivity|]. split; [reflexivity|]. split; [reflexivity|].
  split; [vm_compute; reflexivity|].
  apply (dry_run_sell_alert plain cfg w [] tr1);
    [reflexivity | reflexivity | reflexivity | vm_compute; reflexivity].
Defined.

(** C6, as stated, fails for a status that is neither 2xx nor 4xx/5xx: a
    response with status 300 and a JSON body passes raise_for_status, the
    quantity is returned, and at minute 55 the run goes on to send mail. *)
Lemma status_300_is_accepted :
  let cfg := example_config "14:35" "16:00" "DRY_RUN" in
  let r := {| status_code := 300; json_body := Some (JDict {[ "qty" := JStr "5" ]}) |} in
  let w := example_world 15 55 (Ok r) in
  ¬ (200 ≤ status_code r < 300) ∧ status_code r ≠ 404 ∧
  (get_open_position_qty plain cfg w (SYMBOL cfg) []).1 = Ok 5 ∧
  (decide_and_notify plain cfg w []).1 = Ok () ∧
  mail_events (decide_and_notify plain cfg w []).2 ≠ [].
Proof.
  intros cfg r w. split; [simpl; lia|]. split; [done|].
  split; [vm_compute; reflexivity|]. split; [vm_compute; reflexivity|].
  vm_compute. discriminate.
Qed.

Lemma http_error_aborts_run_witness :
  let cfg := example_config "14:35" "16:00" "DRY_RUN" in
  let r := {| status_code := 500; json_body := None |} in
  let w := example_world 15 55 (Ok r) in
  http_get w (positions_url cfg (SYMBOL cfg)) (alpaca_headers cfg) = Ok r ∧
  400 ≤ status_code r < 600 ∧
  status_code r ≠ 404 ∧
  in_window_utc plain cfg (clock w) = Ok true ∧
  get_open_position_qty plain cfg w (SYMBOL cfg) [] =
    (Raise (HTTPError (Some 500)),
     [HttpGet (positions_url cfg (SYMBOL cfg)) (alpaca_headers cfg) 20]) ∧
  mail_events (decide_and_notify plain cfg w []).2 = [].
Proof.
  intros cfg r w.
  split; [reflexivity|]. split; [simpl; lia|]. split; [discriminate|].
  split; [reflexivity|].
  pose proof (http_error_aborts_run plain cfg w [] r eq_refl
                ltac:(simpl; lia) ltac:(discriminate)) as (H1 & _ & H3).
  split; [exact H1 | exact H3].
Defined.

Lemma live_mode_no_email_witness :
  let cfg := example_config "14:35" "16:00" "LIVE" in
  let r := {| status_code := 200; json_body := Some (JDict {[ "qty" := JStr "5" ]}) |} in
  let w := example_world 15 55 (Ok r) in
  py_upper plain (MODE cfg) ≠ "DRY_RUN" ∧
  mail_events (decide_and_notify plain cfg w []).2 = [].
Proof.
  intros cfg r w. split; [discriminate|].
  apply (live_mode_no_email plain cfg w []). discriminate.
Defined.

(** ** Unchecked boundaries *)

Lemma py_int_raises py s e : py_int py s = Raise e → e = ValueError.
Proof.
  unfold py_int.
  destruct (match skip_space (to_ascii_text py s) with
            | String "+" r => (false, r)
            | String "-" r => (true, r)
            | _ => (false, skip_space (to_ascii_text py s))
            end) as [neg t].
  assert (∀ Y : result Z, (Y = Raise e → e = ValueError) →
            match t with String "_" _ => Raise ValueError | _ => Y end = Raise e →
            e = ValueError) as Hus.
  { intros Y HY. destruct t as [|[[] [] [] [] [] [] [] []] r]; first [exact HY | congruence]. }
  apply Hus. repeat case_match; congruence.
Qed.

Lemma hhmm_to_minutes_raises py s e : hhmm_to_minutes py s = Raise e → e = ValueError.
Proof.
  unfold hhmm_to_minutes.
  destruct (split ":" s) as [|h [|m [|]]]; try congruence.
  destruct (py_int py h) eqn:Eh; simpl; [|intros [= <-]; by eapply py_int_raises].
  destruct (py_int py m) eqn:Em; simpl; [done|intros [= <-]; by eapply py_int_raises].
Qed.

(** C10, as stated, fails in its last part: an out-of-range boundary does not
    always give a window that can never be satisfied.  With the end boundary
    "99:99" (accepted as 6039 minutes) a timestamp of 15:00 is inside the
    window. *)
Lemma out_of_range_end_keeps_window_open :
  let cfg := example_config "14:35" "99:99" "DRY_RUN" in
  hhmm_to_minutes plain (WINDOW_END_UTC cfg) = Ok 6039 ∧
  in_window_utc plain cfg {| hour := 15; minute := 0 |} = Ok true.
Proof. split; reflexivity. Qed.

(** C10, amended: for every boundary "<digits>:<digits>" (each run of digits
    non-empty and within the interpreter's digit limit) hhmm_to_minutes
    returns int(H)*60+int(M) without raising, whatever the numeric range;
    it raises, and then ValueError, exactly for the texts that do not split
    at ":" into two parts which int accepts.  An out-of-range boundary is
    thus used as it is: a start boundary of 1440 minutes or more gives a
    window no timestamp satisfies, while an end boundary of 1439 minutes or
    more leaves the window open from the start boundary on. *)
Theorem hhmm_to_minutes_unchecked py :
  (∀ h m,
     digits h = true → digits m = true →
     over_digit_limit py (strlen h) = false →
     over_digit_limit py (strlen m) = false →
     hhmm_to_minutes py (h +:+ ":" +:+ m) = Ok (decimal_of 0 h * 60 + decimal_of 0 m)) ∧
  (∀ s,
     (hhmm_to_minutes py s = Raise ValueError ↔
      ¬ ∃ h m, split ":" s = [h; m] ∧ is_Ok (py_int py h) ∧ is_Ok (py_int py m)) ∧
     (∀ e, hhmm_to_minutes py s = Raise e → e = ValueError)) ∧
  (∀ cfg dt a,
     datetime_ok dt = true →
     hhmm_to_minutes py (WINDOW_START_UTC cfg) = Ok a → 1440 ≤ a →
     in_window_utc py cfg dt = Ok false) ∧
  (∀ cfg dt a b,
     datetime_ok dt = true →
     hhmm_to_minutes py (WINDOW_START_UTC cfg) = Ok a →
     hhmm_to_minutes py (WINDOW_END_UTC cfg) = Ok b → 1439 ≤ b →
     in_window_utc py cfg dt = Ok (a <=? minute_of_day dt)).
Proof.
  split; [apply hhmm_to_minutes_digits|]. split; [|split].
  - intros s. split; [|apply hhmm_to_minutes_raises].
    unfold hhmm_to_minutes.
    destruct (split ":" s) as [|h [|m [|]]];
      try (split; [intros _ (h' & m' & [=] & _) | done]).
    destruct (py_int py h) as [hv|eh] eqn:Eh; simpl.
    + destruct (py_int py m) as [mv|em] eqn:Em; simpl.
      * split; [done|]. intros []. exists h, m. by repeat split; eexists.
      * apply py_int_raises in Em as Hem. subst em. split; [|done].
        intros _ (h' & m' & [= <- <-] & _ & (x & Hx)). congruence.
    + apply py_int_raises in Eh as Heh. subst eh. split; [|done].
      intros _ (h' & m' & [= <- <-] & (x & Hx) & _). congruence.
  - intros cfg dt a Hdt Ha Hlate. unfold in_window_utc. rewrite Ha. simpl.
    unfold datetime_ok in Hdt. repeat (apply andb_true_iff in Hdt as [Hdt ?]).
    destruct (a <=? _) eqn:E; [|done]. apply Z.leb_le in E. lia.
  - intros cfg dt a b Hdt Ha Hb Hlate. unfold in_window_utc, minute_of_day.
    rewrite Ha. simpl. destruct (a <=? _) eqn:E; [|done].
    rewrite Hb. simpl. f_equal.
    unfold datetime_ok in Hdt. repeat (apply andb_true_iff in Hdt as [Hdt ?]).
    apply Z.leb_le. lia.
Qed.

Lemma hhmm_to_minutes_unchecked_witness :
  let cfg := example_config "99:99" "16:00" "DRY_RUN" in
  let dt := {| hour := 15; minute := 0 |} in
  hhmm_to_minutes plain ("99" +:+ ":" +:+ "99") = Ok 6039 ∧
  hhmm_to_minutes plain "14h35" = Raise ValueError ∧
  in_window_utc plain cfg dt = Ok false.
Proof.
  intros cfg dt.
  pose proof (hhmm_to_minutes_unchecked plain) as (Hd & Hs & Hstart & _).
  split; [|split].
  - apply (Hd "99" "99"); reflexivity.
  - apply (Hs "14h35"). intros (h & m & Hsplit & _). discriminate Hsplit.
  - apply (Hstart cfg dt 6039); [reflexivity | reflexivity | lia].
Defined.

(** ** Dead configuration *)

Lemma getenv_agree (env1 env2 : gmap string string) name dflt :
  env1 !! name = env2 !! name → getenv env1 name dflt = getenv env2 name dflt.
Proof. unfold getenv. by intros ->. Qed.

Lemma decide_and_notify_max_trades py w tr k1 k2 s1 s2 b t f h p u pw sy ws we mo :
  decide_and_notify py
    {| ALPACA_KEY_ID := k1; ALPACA_SECRET_KEY := k2; ALPACA_BASE_URL := b;
       TO_EMAIL := t; FROM_EMAIL := f; SMTP_HOST := h; SMTP_PORT := p;
       SMTP_USER := u; SMTP_PASS := pw; SYMBOL := sy; MAX_TRADES_PER_DAY := s1;
       WINDOW_START_UTC := ws; WINDOW_END_UTC := we; MODE := mo |} w tr =
  decide_and_notify py
    {| ALPACA_KEY_ID := k1; ALPACA_SECRET_KEY := k2; ALPACA_BASE_URL := b;
       TO_EMAIL := t; FROM_EMAIL := f; SMTP_HOST := h; SMTP_PORT := p;
       SMTP_USER := u; SMTP_PASS := pw; SYMBOL := sy; MAX_TRADES_PER_DAY := s2;
       WINDOW_START_UTC := ws; WINDOW_END_UTC := we; MODE := mo |} w tr.
Proof. reflexivity. Qed.

(** C8: MAX_TRADES_PER_DAY is read and not used.  Two runs whose
    environments agree on every other variable, both with a value of
    MAX_TRADES_PER_DAY that int accepts, and with the same clock, server
    replies and mail server, have the same result and the same trace of
    output, requests and mail traffic. *)
Theorem max_trades_per_day_unused py (env1 env2 : gmap string string) w :
  (∀ name, name ≠ "MAX_TRADES_PER_DAY" → env1 !! name = env2 !! name) →
  is_Ok (py_int py (getenv env1 "MAX_TRADES_PER_DAY" "1")) →
  is_Ok (py_int py (getenv env2 "MAX_TRADES_PER_DAY" "1")) →
  main py env1 w = main py env2 w.
Proof.
  intros Hsame [n1 H1] [n2 H2]. unfold main, load_config.
  rewrite H1, H2.
  rewrite !(getenv_agree env1 env2) by (apply Hsame; discriminate).
  destruct (py_int py (getenv env2 "SMTP_PORT" "587")); simpl; [|done].
  apply decide_and_notify_max_trades.
Qed.

Lemma max_trades_per_day_unused_witness :
  let env1 : gmap string string := {[ "MAX_TRADES_PER_DAY" := "1"; "MODE" := "DRY_RUN" ]} in
  let env2 : gmap string string := {[ "MAX_TRADES_PER_DAY" := "25"; "MODE" := "DRY_RUN" ]} in
  let w := example_world 15 40 (Ok {| status_code := 404; json_body := None |}) in
  main plain env1 w = main plain env2 w.
Proof.
  intros env1 env2 w.
  apply (max_trades_per_day_unused plain env1 env2 w).
  - intros name Hne. unfold env1, env2.
    rewrite !lookup_insert_ne by done. reflexivity.
  - exists 1. reflexivity.
  - exists 25. reflexivity.
Defined.

(** ** Scenarios *)

Example fetch_three :
  let cfg := example_config "14:35" "16:00" "DRY_RUN" in
  let r := {| status_code := 200; json_body := Some (JDict {[ "qty" := JStr "3.0" ]}) |} in
  (get_open_position_qty plain cfg (example_world 15 0 (Ok r)) "SPY" []).1 = Ok 3.
Proof. vm_compute. reflexivity. Qed.

Example dry_run_buy_at_40 :
  let cfg := example_config "14:35" "16:00" "DRY_RUN" in
  let w := example_world 15 40 (Ok {| status_code := 404; json_body := None |}) in
  ∃ msg,
    sent_messages (decide_and_notify plain cfg w []).2 = [msg] ∧
    hdr_Subject msg = "BUY SPY — ACTION REQUIRED" ∧
    contains "Qty: 1" (content msg) = true.
Proof.
  intros cfg w. exists (message_of cfg (buy_alert cfg 1).1 (buy_alert cfg 1).2).
  repeat split; vm_compute; reflexivity.
Qed.

Example dry_run_quiet_at_41 :
  let cfg := example_config "14:35" "16:00" "DRY_RUN" in
  let w := example_world 15 41 (Ok {| status_code := 404; json_body := None |}) in
  decide_and_notify plain cfg w [] =
  (Ok (), [fetch_event cfg; Stdout "DRY_RUN: no message this minute."]).
Proof. vm_compute. reflexivity. Qed.

Example outside_window_no_fetch :
  let cfg := example_config "14:35" "16:00" "DRY_RUN" in
  let w := example_world 16 1 (Ok {| status_code := 500; json_body := None |}) in
  decide_and_notify plain cfg w [] = (Ok (), [Stdout "Outside window; exiting."]).
Proof. vm_compute. reflexivity. Qed.

Example malformed_end_not_reached :
  let cfg := example_config "14:35" "4pm" "DRY_RUN" in
  in_window_utc plain cfg {| hour := 9; minute := 0 |} = Ok false ∧
  in_window_utc plain cfg {| hour := 15; minute := 0 |} = Raise ValueError.
Proof. split; reflexivity. Qed.

(** * Further properties of the script *)

(** ** The window gate and its boundaries *)

Lemma split_length sep s : length (split sep s) = S (occurrences sep s).
Proof.
  induction s as [|c r IH]; simpl; [done|].
  destruct (Ascii.eqb c sep); simpl; [by rewrite IH|].
  destruct (split sep r); simpl in *; [done|]. lia.
Qed.

(** X4: a boundary text that does not hold exactly one colon is rejected
    with ValueError: the unpacking of hhmm.split(":") into h, m needs two
    parts. *)
Theorem hhmm_to_minutes_colon_count py s :
  occurrences ":" s ≠ 1%nat →
  hhmm_to_minutes py s = Raise ValueError.
Proof.
  intros Hn. unfold hhmm_to_minutes.
  pose proof (split_length ":" s) as Hl.
  destruct (split ":" s) as [|h [|m [|x l]]]; try done.
  simpl in Hl. lia.
Qed.

Lemma hhmm_to_minutes_colon_count_witness :
  occurrences ":" "14:35:00" ≠ 1%nat ∧
  hhmm_to_minutes plain "14:35:00" = Raise ValueError.
Proof.
  split; [discriminate|].
  apply (hhmm_to_minutes_colon_count plain "14:35:00"). discriminate.
Defined.

(** X2: a start boundary that does not parse makes the window test raise
    ValueError for every timestamp.  An end boundary that does not parse is
    only looked at when the start test passes: before the start boundary the
    test is false without error, from the start boundary on it raises
    ValueError. *)
Theorem in_window_utc_malformed py cfg dt :
  (∀ e, hhmm_to_minutes py (WINDOW_START_UTC cfg) = Raise e →
        in_window_utc py cfg dt = Raise ValueError) ∧
  (∀ a e, hhmm_to_minutes py (WINDOW_START_UTC cfg) = Ok a →
          hhmm_to_minutes py (WINDOW_END_UTC cfg) = Raise e →
          in_window_utc py cfg dt =
            if a <=? minute_of_day dt then Raise ValueError else Ok false).
Proof.
  unfold in_window_utc, minute_of_day. split.
  - intros e He. apply hhmm_to_minutes_raises in He as Hv. subst e. by rewrite He.
  - intros a e Ha He. apply hhmm_to_minutes_raises in He as Hv. subst e.
    rewrite Ha. simpl. destruct (a <=? _); [by rewrite He|done].
Qed.

Lemma in_window_utc_malformed_witness :
  let cfg := example_config "14:35" "4pm" "DRY_RUN" in
  in_window_utc plain cfg {| hour := 9; minute := 0 |} = Ok false ∧
  in_window_utc plain cfg {| hour := 15; minute := 0 |} = Raise ValueError.
Proof.
  intros cfg. split.
  - apply (proj2 (in_window_utc_malformed plain cfg {| hour := 9; minute := 0 |})
             875 ValueError); reflexivity.
  - apply (proj2 (in_window_utc_malformed plain cfg {| hour := 15; minute := 0 |})
             875 ValueError); reflexivity.
Defined.

(** X3: when the start boundary lies after the end boundary, as for a window
    meant to run over midnight, the window test is false for every
    timestamp, and every run ends at the gate: it prints the notice, fetches
    nothing and sends nothing. *)
Theorem inverted_window_never_open py cfg w tr a b :
  hhmm_to_minutes py (WINDOW_START_UTC cfg) = Ok a →
  hhmm_to_minutes py (WINDOW_END_UTC cfg) = Ok b →
  b < a →
  (∀ dt, in_window_utc py cfg dt = Ok false) ∧
  decide_and_notify py cfg w tr =
    (Ok (), (tr ++ [Stdout "Outside window; exiting."])%list).
Proof.
  intros Ha Hb Hlt.
  assert (∀ dt, in_window_utc py cfg dt = Ok false) as Hw.
  { intros dt. unfold in_window_utc. rewrite Ha. simpl.
    destruct (a <=? _) eqn:E; [|done]. rewrite Hb. simpl. f_equal.
    apply Z.leb_le in E. apply Z.leb_gt. lia. }
  split; [done|].
  unfold decide_and_notify, now_utc.
  unfold mbind at 1 2, io_bind at 1 2, mret, io_ret, lift.
  by rewrite Hw.
Qed.

Lemma inverted_window_never_open_witness :
  let cfg := example_config "22:00" "02:00" "DRY_RUN" in
  let w := example_world 23 40 (Ok {| status_code := 404; json_body := None |}) in
  hhmm_to_minutes plain (WINDOW_START_UTC cfg) = Ok 1320 ∧
  hhmm_to_minutes plain (WINDOW_END_UTC cfg) = Ok 120 ∧
  120 < 1320 ∧
  decide_and_notify plain cfg w [] = (Ok (), [Stdout "Outside window; exiting."]).
Proof.
  intros cfg w. split; [reflexivity|]. split; [reflexivity|]. split; [lia|].
  apply (inverted_window_never_open plain cfg w [] 1320 120); [reflexivity | reflexivity | lia].
Defined.

(** X1: outside the window nothing happens but a notice.  When the current
    minute of the day lies before the start boundary, or after an end
    boundary that parses, the run prints "Outside window; exiting." and
    returns: no request is made and no mail traffic occurs. *)
Theorem outside_window_is_silent py cfg w tr a :
  hhmm_to_minutes py (WINDOW_START_UTC cfg) = Ok a →
  (minute_of_day (clock w) < a ∨
   ∃ b, hhmm_to_minutes py (WINDOW_END_UTC cfg) = Ok b ∧ b < minute_of_day (clock w)) →
  decide_and_notify py cfg w tr =
    (Ok (), (tr ++ [Stdout "Outside window; exiting."])%list) ∧
  http_gets (decide_and_notify py cfg w tr).2 = http_gets tr ∧
  mail_events (decide_and_notify py cfg w tr).2 = mail_events tr.
Proof.
  intros Ha Hout.
  assert (in_window_utc py cfg (clock w) = Ok false) as Hw.
  { unfold in_window_utc. fold (minute_of_day (clock w)). rewrite Ha. simpl.
    destruct (a <=? _) eqn:E.
    - apply Z.leb_le in E. destruct Hout as [?|(b & Hb & Hlt)]; [lia|].
      rewrite Hb. simpl. f_equal. apply Z.leb_gt. lia.
    - done. }
  assert (decide_and_notify py cfg w tr =
          (Ok (), (tr ++ [Stdout "Outside window; exiting."])%list)) as E.
  { unfold decide_and_notify, now_utc.
    unfold mbind at 1 2, io_bind at 1 2, mret, io_ret, lift.
    by rewrite Hw. }
  split; [done|]. rewrite E. simpl. unfold http_gets, mail_events.
  rewrite !List.filter_app. simpl. by rewrite !app_nil_r.
Qed.

Lemma outside_window_is_silent_witness :
  let cfg := example_config "14:35" "16:00" "DRY_RUN" in
  let w := example_world 16 1 (Ok {| status_code := 404; json_body := None |}) in
  hhmm_to_minutes plain (WINDOW_START_UTC cfg) = Ok 875 ∧
  (∃ b, hhmm_to_minutes plain (WINDOW_END_UTC cfg) = Ok b ∧ b < minute_of_day (clock w)) ∧
  decide_and_notify plain cfg w [] = (Ok (), [Stdout "Outside window; exiting."]).
Proof.
  intros cfg w. split; [reflexivity|].
  assert (∃ b, hhmm_to_minutes plain (WINDOW_END_UTC cfg) = Ok b ∧ b < minute_of_day (clock w)) as Hb.
  { exists 960. split; [reflexivity | vm_compute; reflexivity]. }
  split; [exact Hb|].
  apply (outside_window_is_silent plain cfg w [] 875); [reflexivity | right; exact Hb].
Defined.

(** ** The decision step in test mode *)

Lemma prefix_app n r : String.prefix n (n +:+ r) = true.
Proof.
  induction n as [|c n IH]; simpl; [by destruct r|].
  destruct (ascii_dec c c); [done|congruence].
Qed.

Lemma append_assoc (a b c : string) : (a +:+ b) +:+ c = a +:+ b +:+ c.
Proof.
  induction a as [|x a IH]; [done|].
  change (String x ((a +:+ b) +:+ c) = String x (a +:+ b +:+ c)). by rewrite IH.
Qed.

Lemma contains_prefix n b h : h = n +:+ b → contains n h = true.
Proof.
  intros ->. pose proof (prefix_app n b) as H.
  destruct (n +:+ b) as [|c r];
    [change (String.prefix n "" || false = true)
    |change (String.prefix n (String c r) || contains n r = true)];
    by rewrite H.
Qed.

Lemma send_email_unconfigured cfg w subject body tr :
  mail_configured cfg = false →
  send_email cfg w subject body tr =
    (Ok (), (tr ++ [Stderr "Missing email/SMTP env vars; cannot send."])%list).
Proof.
  intros H. unfold send_email. fold (mail_configured cfg). by rewrite H.
Qed.

Section TestMode.

Variable py : interpreter.
Variable cfg : config.
Variable w : world.

(** X5: in test mode, inside the window, with no open position and at
    minute 40, the run calls send_email once, with the subject
    "BUY SPY — ACTION REQUIRED" and a body that names the configured symbol,
    the quantity 1 and a market order, and prints "Sent DRY_RUN BUY." only
    when that call returns. *)
Theorem dry_run_buy_alert tr tr1 :
  py_upper py (MODE cfg) = "DRY_RUN" →
  in_window_utc py cfg (clock w) = Ok true →
  minute (clock w) = 40 →
  get_open_position_qty py cfg w (SYMBOL cfg) tr = (Ok 0, tr1) →
  let body := (buy_alert cfg 1).2 in
  decide_and_notify py cfg w tr =
    (send_email cfg w "BUY SPY — ACTION REQUIRED" body;; print "Sent DRY_RUN BUY.") tr1 ∧
  contains ("BUY " +:+ SYMBOL cfg +:+ " NOW" +:+ nl) body = true ∧
  contains ("Qty: 1" +:+ nl) body = true ∧
  contains ("Order: Market" +:+ nl) body = true ∧
  (∀ e tr2, send_email cfg w "BUY SPY — ACTION REQUIRED" body tr1 = (Raise e, tr2) →
            decide_and_notify py cfg w tr = (Raise e, tr2)).
Proof.
  intros Hmode Hin Hmin Hq body.
  rewrite get_open_position_qty_eq in Hq. injection Hq as Hq <-.
  assert (decide_and_notify py cfg w tr =
          (send_email cfg w "BUY SPY — ACTION REQUIRED" body;; print "Sent DRY_RUN BUY.")
            (tr ++ [fetch_event cfg])%list) as E.
  { rewrite decide_and_notify_inside, Hq, Hmode, Hmin by done. reflexivity. }
  split; [exact E|].
  assert (∀ e tr2, send_email cfg w "BUY SPY — ACTION REQUIRED" body
                     (tr ++ [fetch_event cfg])%list = (Raise e, tr2) →
                   decide_and_notify py cfg w tr = (Raise e, tr2)) as Hfail.
  { intros e tr2 Hs. rewrite E. unfold mbind, io_bind. by rewrite Hs. }
  revert Hfail. unfold body, buy_alert. cbn [snd]. intros Hfail.
  split.
  { apply (contains_prefix _
             ("Qty: " +:+ str_of_int 1 +:+ nl +:+ "Order: Market" +:+ nl +:+
              "Max Risk: $50 (paper)" +:+ nl +:+ nl +:+
              "Open Alpaca and BUY within 5 minutes." +:+ nl)).
    rewrite ?append_assoc. reflexivity. }
  split. { do 4 apply contains_app_r. reflexivity. }
  split. { do 4 apply contains_app_r. reflexivity. }
  exact Hfail.
Qed.

(** X6: in test mode, inside the window, with an open position of any
    quantity q > 0 and at minute 55, the run calls send_email once, with the
    subject "SELL SPY — ACTION REQUIRED" and a body that names the
    configured symbol, the whole quantity q and the reason "DRY_RUN exit",
    and prints "Sent DRY_RUN SELL." only when that call returns. *)
Theorem dry_run_sell_whole_position tr tr1 q :
  py_upper py (MODE cfg) = "DRY_RUN" →
  in_window_utc py cfg (clock w) = Ok true →
  minute (clock w) = 55 →
  get_open_position_qty py cfg w (SYMBOL cfg) tr = (Ok q, tr1) →
  0 < q →
  let body := (sell_alert cfg q "DRY_RUN exit").2 in
  decide_and_notify py cfg w tr =
    (send_email cfg w "SELL SPY — ACTION REQUIRED" body;; print "Sent DRY_RUN SELL.") tr1 ∧
  contains ("SELL " +:+ SYMBOL cfg +:+ " NOW" +:+ nl) body = true ∧
  contains ("Qty: " +:+ str_of_int q +:+ nl) body = true ∧
  contains ("Reason: DRY_RUN exit" +:+ nl) body = true ∧
  (∀ e tr2, send_email cfg w "SELL SPY — ACTION REQUIRED" body tr1 = (Raise e, tr2) →
            decide_and_notify py cfg w tr = (Raise e, tr2)).
Proof.
  intros Hmode Hin Hmin Hq Hpos body.
  rewrite get_open_position_qty_eq in Hq. injection Hq as Hq <-.
  assert (decide_and_notify py cfg w tr =
          (send_email cfg w "SELL SPY — ACTION REQUIRED" body;; print "Sent DRY_RUN SELL.")
            (tr ++ [fetch_event cfg])%list) as E.
  { rewrite decide_and_notify_inside, Hq, Hmode, Hmin by done.
    assert ((q =? 0) = false) as -> by (apply Z.eqb_neq; lia).
    assert ((0 <? q) = true) as -> by (apply Z.ltb_lt; lia).
    reflexivity. }
  split; [exact E|].
  assert (∀ e tr2, send_email cfg w "SELL SPY — ACTION REQUIRED" body
                     (tr ++ [fetch_event cfg])%list = (Raise e, tr2) →
                   decide_and_notify py cfg w tr = (Raise e, tr2)) as Hfail.
  { intros e tr2 Hs. rewrite E. unfold mbind, io_bind. by rewrite Hs. }
  revert Hfail. unfold body, sell_alert. cbn [snd]. intros Hfail.
  split.
  { apply (contains_prefix _
             ("Qty: " +:+ str_of_int q +:+ nl +:+ "Reason: " +:+ "DRY_RUN exit" +:+ nl +:+
              nl +:+ "Open Alpaca and SELL immediately." +:+ nl)).
    rewrite ?append_assoc. reflexivity. }
  split.
  { do 4 apply contains_app_r.
    apply (contains_prefix _
             ("Reason: " +:+ "DRY_RUN exit" +:+ nl +:+
              nl +:+ "Open Alpaca and SELL immediately." +:+ nl)).
    rewrite ?append_assoc. reflexivity. }
  split. { do 7 apply contains_app_r. reflexivity. }
  exact Hfail.
Qed.

End TestMode.

Lemma dry_run_buy_alert_witness :
  let cfg := example_config "14:35" "16:00" "Dry_Run" in
  let w := example_world 14 40 (Ok {| status_code := 404; json_body := None |}) in
  let tr1 := [fetch_event cfg] in
  py_upper plain (MODE cfg) = "DRY_RUN" ∧
  in_window_utc plain cfg (clock w) = Ok true ∧
  minute (clock w) = 40 ∧
  get_open_position_qty plain cfg w (SYMBOL cfg) [] = (Ok 0, tr1) ∧
  contains ("BUY " +:+ SYMBOL cfg +:+ " NOW" +:+ nl) (buy_alert cfg 1).2 = true.
Proof.
  intros cfg w tr1.
  split; [reflexivity|]. split; [reflexivity|]. split; [reflexivity|].
  split; [vm_compute; reflexivity|].
  apply (dry_run_buy_alert plain cfg w [] tr1);
    [reflexivity | reflexivity | reflexivity | vm_compute; reflexivity].
Defined.

Lemma dry_run_sell_whole_position_witness :
  let cfg := example_config "14:35" "16:00" "DRY_RUN" in
  let r := {| status_code := 200; json_body := Some (JDict {[ "qty" := JStr "120" ]}) |} in
  let w := example_world 15 55 (Ok r) in
  let tr1 := [fetch_event cfg] in
  py_upper plain (MODE cfg) = "DRY_RUN" ∧
  in_window_utc plain cfg (clock w) = Ok true ∧
  minute (clock w) = 55 ∧
  get_open_position_qty plain cfg w (SYMBOL cfg) [] = (Ok 120, tr1) ∧
  0 < 120 ∧
  contains ("Qty: " +:+ str_of_int 120 +:+ nl) (sell_alert cfg 120 "DRY_RUN exit").2 = true.
Proof.
  intros cfg r w tr1.
  split; [reflexivity|]. split; [reflexivity|]. split; [reflexivity|].
  split; [vm_compute; reflexivity|]. split; [lia|].
  apply (dry_run_sell_whole_position plain cfg w [] tr1 120);
    [reflexivity | reflexivity | reflexivity | vm_compute; reflexivity | lia].
Defined.

(** X7: in test mode, inside the window, every fetched quantity and minute
    other than the two triggers (quantity 0 at minute 40, quantity above 0 at
    minute 55) gives no alert: the run prints "DRY_RUN: no message this
    minute." and returns.  In particular a negative quantity never alerts. *)
Theorem dry_run_no_trigger py cfg w tr tr1 q :
  py_upper py (MODE cfg) = "DRY_RUN" →
  in_window_utc py cfg (clock w) = Ok true →
  get_open_position_qty py cfg w (SYMBOL cfg) tr = (Ok q, tr1) →
  ¬ (q = 0 ∧ minute (clock w) = 40) →
  ¬ (0 < q ∧ minute (clock w) = 55) →
  decide_and_notify py cfg w tr =
    (Ok (), (tr1 ++ [Stdout "DRY_RUN: no message this minute."])%list) ∧
  mail_events (decide_and_notify py cfg w tr).2 = mail_events tr.
Proof.
  intros Hmode Hin Hq Hbuy Hsell.
  rewrite get_open_position_qty_eq in Hq. injection Hq as Hq <-.
  assert (decide_and_notify py cfg w tr =
          (Ok (), ((tr ++ [fetch_event cfg]) ++
                   [Stdout "DRY_RUN: no message this minute."])%list)) as E.
  { rewrite decide_and_notify_inside, Hq, Hmode by done. simpl.
    assert ((q =? 0) && (minute (clock w) =? 40) = false) as ->.
    { apply andb_false_iff.
      destruct (Z.eqb_spec q 0), (Z.eqb_spec (minute (clock w)) 40); tauto. }
    assert ((0 <? q) && (minute (clock w) =? 55) = false) as ->.
    { apply andb_false_iff.
      destruct (Z.ltb_spec 0 q), (Z.eqb_spec (minute (clock w)) 55); tauto. }
    reflexivity. }
  split; [exact E|]. rewrite E. simpl.
  rewrite !mail_events_app. simpl. by rewrite !app_nil_r.
Qed.

Lemma dry_run_no_trigger_witness :
  let cfg := example_config "14:35" "16:00" "DRY_RUN" in
  let r := {| status_code := 200; json_body := Some (JDict {[ "qty" := JStr "-5" ]}) |} in
  let w := example_world 15 55 (Ok r) in
  py_upper plain (MODE cfg) = "DRY_RUN" ∧
  in_window_utc plain cfg (clock w) = Ok true ∧
  get_open_position_qty plain cfg w (SYMBOL cfg) [] = (Ok (-5), [fetch_event cfg]) ∧
  decide_and_notify plain cfg w [] =
    (Ok (), [fetch_event cfg; Stdout "DRY_RUN: no message this minute."]).
Proof.
  intros cfg r w.
  split; [reflexivity|]. split; [reflexivity|]. split; [vm_compute; reflexivity|].
  apply (dry_run_no_trigger plain cfg w [] [fetch_event cfg] (-5));
    [reflexivity | reflexivity | vm_compute; reflexivity | lia | lia].
Defined.

(** X11: a skipped send is still reported as sent.  In test mode, inside the
    window, at a trigger (quantity 0 at minute 40, or quantity above 0 at
    minute 55), when one of the five mail settings is empty the run writes
    the diagnostic to the error stream, then prints "Sent DRY_RUN BUY." or
    "Sent DRY_RUN SELL." and returns normally. *)
Theorem skipped_send_reported_sent py cfg w tr tr1 q :
  mail_configured cfg = false →
  py_upper py (MODE cfg) = "DRY_RUN" →
  in_window_utc py cfg (clock w) = Ok true →
  get_open_position_qty py cfg w (SYMBOL cfg) tr = (Ok q, tr1) →
  (q = 0 ∧ minute (clock w) = 40) ∨ (0 < q ∧ minute (clock w) = 55) →
  decide_and_notify py cfg w tr =
    (Ok (), (tr1 ++ [Stderr "Missing email/SMTP env vars; cannot send.";
                     Stdout (if q =? 0 then "Sent DRY_RUN BUY." else "Sent DRY_RUN SELL.")])%list).
Proof.
  intros Hmail Hmode Hin Hq Htrig.
  rewrite get_open_position_qty_eq in Hq. injection Hq as Hq <-.
  rewrite decide_and_notify_inside, Hq, Hmode by done. simpl.
  destruct Htrig as [[-> Hm]|[Hpos Hm]]; rewrite Hm; simpl.
  - unfold mbind, io_bind. rewrite send_email_unconfigured by done.
    unfold print, emit, fetch_event. by rewrite <- List.app_assoc.
  - assert ((q =? 0) = false) as -> by (apply Z.eqb_neq; lia).
    assert ((0 <? q) = true) as -> by (apply Z.ltb_lt; lia).
    simpl. unfold mbind, io_bind. rewrite send_email_unconfigured by done.
    unfold print, emit, fetch_event. by rewrite <- List.app_assoc.
Qed.

Lemma skipped_send_reported_sent_witness :
  let cfg :=
    {| ALPACA_KEY_ID := "key"; ALPACA_SECRET_KEY := "secret";
       ALPACA_BASE_URL := "https://paper-api.alpaca.markets";
       TO_EMAIL := ""; FROM_EMAIL := ""; SMTP_HOST := ""; SMTP_PORT := 587;
       SMTP_USER := ""; SMTP_PASS := "";
       SYMBOL := "SPY"; MAX_TRADES_PER_DAY := 1;
       WINDOW_START_UTC := "14:35"; WINDOW_END_UTC := "16:00"; MODE := "DRY_RUN" |} in
  let w := example_world 15 40 (Ok {| status_code := 404; json_body := None |}) in
  mail_configured cfg = false ∧
  py_upper plain (MODE cfg) = "DRY_RUN" ∧
  in_window_utc plain cfg (clock w) = Ok true ∧
  get_open_position_qty plain cfg w (SYMBOL cfg) [] = (Ok 0, [fetch_event cfg]) ∧
  decide_and_notify plain cfg w [] =
    (Ok (), [fetch_event cfg; Stderr "Missing email/SMTP env vars; cannot send.";
             Stdout "Sent DRY_RUN BUY."]).
Proof.
  intros cfg w.
  split; [reflexivity|]. split; [reflexivity|]. split; [reflexivity|].
  split; [vm_compute; reflexivity|].
  apply (skipped_send_reported_sent plain cfg w [] [fetch_event cfg] 0);
    [reflexivity | reflexivity | reflexivity | vm_compute; reflexivity | left; split; reflexivity].
Defined.

(** ** The mail session *)

(* a trace built by appending single events, as [tr ++ evs] for the events added *)
Ltac trace_tail :=
  rewrite <- ?List.app_assoc; simpl;
  eexists; (split; [reflexivity|]); simpl; repeat split; done || lia.

Section Session.

Variable cfg : config.
Variable w : world.


(* what one call of send_email adds to the trace *)
Lemma send_email_adds subject body tr :
  ∃ evs,
    (send_email cfg w subject body tr).2 = (tr ++ evs)%list ∧
    http_gets evs = [] ∧
    (length (sent_messages evs) ≤ 1)%nat ∧
    (mail_configured cfg = false → mail_events evs = []).
Proof.
  destruct (mail_configured cfg) eqn:Hcfg.
  2: { exists [Stderr "Missing email/SMTP env vars; cannot send."].
       rewrite send_email_unconfigured by done. simpl. repeat split; done || lia. }
  unfold send_email. fold (mail_configured cfg). rewrite Hcfg. cbn [negb].
  unfold mbind, io_bind, lift, emit, outcome, with_exit, raise, lift, mret, io_ret.
  assert (∀ tr' : list event, tr' = tr →
            ∃ evs, tr' = (tr ++ evs)%list ∧ http_gets evs = [] ∧
                   (length (sent_messages evs) ≤ 1)%nat ∧
                   (true = false → mail_events evs = [])) as none.
  { intros tr' ->. exists []. rewrite app_nil_r. repeat split; simpl; done || lia. }
  destruct (header_value subject) as [s|]; [|by apply none].
  destruct (header_value (FROM_EMAIL cfg)) as [f|]; [|by apply none].
  destruct (header_value (TO_EMAIL cfg)) as [t|]; [|by apply none].
  destruct (smtp_connect w _ _); simpl; [trace_tail|].
  destruct (smtp_starttls w); simpl; [destruct (smtp_quit w); simpl; trace_tail|].
  destruct (smtp_login w _ _); simpl; [destruct (smtp_quit w); simpl; trace_tail|].
  destruct (smtp_send_message w _), (smtp_quit w); simpl; trace_tail.
Qed.

End Session.


(** ** What a run never does *)

Section WholeRun.

Variable py : interpreter.
Variable cfg : config.
Variable w : world.

(* an alert: the send, then the notice when the send returns *)
Lemma alert_adds subject body line tr1 :
  ∃ evs,
    ((send_email cfg w subject body;; print line) tr1).2 = (tr1 ++ evs)%list ∧
    http_gets evs = [] ∧
    (length (sent_messages evs) ≤ 1)%nat ∧
    (mail_configured cfg = false → mail_events evs = []).
Proof.
  destruct (send_email_adds cfg w subject body tr1) as (evs & E & Hg & Hs & Hm).
  unfold mbind, io_bind, print, emit.
  destruct (send_email cfg w subject body tr1) as [[[]|e] tr2]; simpl in *; subst tr2.
  - exists (evs ++ [Stdout line])%list. rewrite <- List.app_assoc. split; [done|].
    unfold http_gets, mail_events in *.
    rewrite sent_messages_app, !List.filter_app. simpl. rewrite !app_nil_r.
    repeat split; done.
  - by exists evs.
Qed.

(* the run as what it adds to the trace, branch by branch *)
Lemma decide_and_notify_adds tr :
  ∃ evs,
    (decide_and_notify py cfg w tr).2 = (tr ++ evs)%list ∧
    (length (http_gets evs) ≤ 1)%nat ∧
    (length (sent_messages evs) ≤ 1)%nat ∧
    (mail_events evs ≠ [] →
     in_window_utc py cfg (clock w) = Ok true ∧
     py_upper py (MODE cfg) = "DRY_RUN" ∧
     mail_configured cfg = true ∧
     ∃ q, fetched py (http_get w (positions_url cfg (SYMBOL cfg)) (alpaca_headers cfg)) = Ok q ∧
          (q = 0 ∧ minute (clock w) = 40 ∨ 0 < q ∧ minute (clock w) = 55)).
Proof.
  destruct (in_window_utc py cfg (clock w)) as [[]|e] eqn:Hin.
  2: { rewrite decide_and_notify_outside by done. eexists. split; [reflexivity|].
       simpl. repeat split; done || lia. }
  2: { rewrite (decide_and_notify_window_error py cfg w tr e) by done.
       exists []. rewrite app_nil_r. simpl. repeat split; done || lia. }
  rewrite decide_and_notify_inside by done.
  destruct (fetched py _) as [q|e] eqn:Hq.
  2: { eexists. split; [reflexivity|]. simpl. repeat split; done || lia. }
  destruct (String.eqb _ _) eqn:Hmode.
  2: { simpl. rewrite <- List.app_assoc. eexists. split; [reflexivity|].
       simpl. repeat split; done || lia. }
  apply String.eqb_eq in Hmode.
  assert (∀ subject body line,
            (q = 0 ∧ minute (clock w) = 40 ∨ 0 < q ∧ minute (clock w) = 55) →
            ∃ evs,
              ((send_email cfg w subject body;; print line)
                 (tr ++ [fetch_event cfg])%list).2 = (tr ++ evs)%list ∧
              (length (http_gets evs) ≤ 1)%nat ∧
              (length (sent_messages evs) ≤ 1)%nat ∧
              (mail_events evs ≠ [] →
               Ok true = Ok true ∧ py_upper py (MODE cfg) = "DRY_RUN" ∧
               mail_configured cfg = true ∧
               ∃ q0, Ok q = Ok q0 ∧
                     (q0 = 0 ∧ minute (clock w) = 40 ∨ 0 < q0 ∧ minute (clock w) = 55)))
    as alert.
  { intros subject body line Htrig.
    destruct (alert_adds subject body line (tr ++ [fetch_event cfg])%list)
      as (evs & E & Hg & Hs & Hm).
    exists (fetch_event cfg :: evs). rewrite E, <- List.app_assoc. split; [done|].
    unfold http_gets, mail_events in *. simpl. rewrite Hg. simpl.
    unfold sent_messages in *. simpl.
    split; [lia|]. split; [done|].
    intros Hmail. destruct (mail_configured cfg); [|by destruct Hmail; apply Hm].
    repeat split; try done. by exists q. }
  destruct ((q =? 0) && (minute (clock w) =? 40)) eqn:Hbuy.
  { apply andb_true_iff in Hbuy as [?%Z.eqb_eq ?%Z.eqb_eq]. apply alert. by left. }
  destruct ((0 <? q) && (minute (clock w) =? 55)) eqn:Hsell.
  { apply andb_true_iff in Hsell as [?%Z.ltb_lt ?%Z.eqb_eq]. apply alert. by right. }
  simpl. rewrite <- List.app_assoc. eexists. split; [reflexivity|].
  simpl. repeat split; done || lia.
Qed.

(** X9: a run makes at most one request to the broker and hands at most one
    message to the mail server, whatever the configuration, the clock and
    the replies; it only ever appends to what happened before. *)
Theorem one_request_one_message tr :
  ∃ evs,
    (decide_and_notify py cfg w tr).2 = (tr ++ evs)%list ∧
    (length (http_gets evs) ≤ 1)%nat ∧
    (length (sent_messages evs) ≤ 1)%nat.
Proof.
  destruct (decide_and_notify_adds tr) as (evs & E & Hg & Hs & _).
  by exists evs.
Qed.

(** X8: mail traffic occurs only at a trigger.  If a run has any mail
    traffic, then the timestamp was inside the window, MODE.upper() was
    "DRY_RUN", all five mail settings were present, the position was
    fetched without error, and either the quantity was 0 at minute 40 or it
    was above 0 at minute 55. *)
Theorem mail_only_at_trigger tr :
  mail_events (decide_and_notify py cfg w tr).2 ≠ mail_events tr →
  in_window_utc py cfg (clock w) = Ok true ∧
  py_upper py (MODE cfg) = "DRY_RUN" ∧
  mail_configured cfg = true ∧
  ∃ q, (get_open_position_qty py cfg w (SYMBOL cfg) tr).1 = Ok q ∧
       (q = 0 ∧ minute (clock w) = 40 ∨ 0 < q ∧ minute (clock w) = 55).
Proof.
  destruct (decide_and_notify_adds tr) as (evs & E & _ & _ & H).
  rewrite E, mail_events_app. intros Hne.
  rewrite get_open_position_qty_eq. simpl. apply H.
  intros Hnil. apply Hne. by rewrite Hnil, app_nil_r.
Qed.

End WholeRun.

Lemma mail_only_at_trigger_witness :
  let cfg := example_config "14:35" "16:00" "DRY_RUN" in
  let w := example_world 14 40 (Ok {| status_code := 404; json_body := None |}) in
  mail_events (decide_and_notify plain cfg w []).2 ≠ mail_events [] ∧
  minute (clock w) = 40 ∧
  py_upper plain (MODE cfg) = "DRY_RUN".
Proof.
  intros cfg w.
  assert (mail_events (decide_and_notify plain cfg w []).2 ≠ mail_events []) as Hne.
  { vm_compute. discriminate. }
  split; [exact Hne|]. split; [reflexivity|].
  apply (mail_only_at_trigger plain cfg w [] Hne).
Defined.

(** ** Whole quantities pass through float unchanged *)

Lemma digits2_pos_lower p : 2 ^ (Zpos (digits2_pos p) - 1) ≤ Zpos p.
Proof.
  induction p as [p IH|p IH|]; cbn [digits2_pos]; [| |done].
  - rewrite Pos2Z.inj_succ.
    replace (Z.succ (Zpos (digits2_pos p)) - 1) with (Z.succ (Zpos (digits2_pos p) - 1)) by lia.
    rewrite Z.pow_succ_r by lia.
    revert IH. generalize (2 ^ (Zpos (digits2_pos p) - 1)). intros; lia.
  - rewrite Pos2Z.inj_succ.
    replace (Z.succ (Zpos (digits2_pos p)) - 1) with (Z.succ (Zpos (digits2_pos p) - 1)) by lia.
    rewrite Z.pow_succ_r by lia.
    revert IH. generalize (2 ^ (Zpos (digits2_pos p) - 1)). intros; lia.
Qed.

Lemma digits2_pos_bound p : Zpos p < 2 ^ 53 → Zpos (digits2_pos p) ≤ 53.
Proof.
  intros Hp. destruct (Z.le_gt_cases (Zpos (digits2_pos p)) 53) as [|Hgt]; [done|].
  pose proof (digits2_pos_lower p) as Hl.
  assert (2 ^ 53 ≤ 2 ^ (Zpos (digits2_pos p) - 1)) by (apply Z.pow_le_mono_r; lia).
  lia.
Qed.

Lemma iter_xO p k :
  Zpos (Pos.iter xO p k) = Zpos p * 2 ^ Zpos k ∧
  Zpos (digits2_pos (Pos.iter xO p k)) = Zpos (digits2_pos p) + Zpos k.
Proof.
  induction k as [|k [IH1 IH2]] using Pos.peano_ind.
  - simpl. split; lia.
  - rewrite Pos.iter_succ. cbn [digits2_pos].
    rewrite !Pos2Z.inj_succ, IH2, Z.pow_succ_r by lia.
    split; [|lia]. revert IH1. generalize (2 ^ Zpos k). intros; lia.
Qed.

(* a 53-bit mantissa with an exponent in range is kept as it is *)
Lemma binary_round_aux_canonical s m e :
  Zpos (digits2_pos m) = 53 → -1074 ≤ e ≤ 971 →
  binary_round_aux prec emax s (Zpos m) e loc_Exact = S754_finite s m e.
Proof.
  intros Hd He.
  assert (fexp prec emax (Zdigits2 (Zpos m) + e) - e = 0) as H0.
  { unfold fexp, emin, prec, emax, Zdigits2. rewrite Hd. lia. }
  unfold binary_round_aux, shr_fexp. rewrite H0. cbn [shr shr_record_of_loc].
  cbn [shr_m loc_of_shr_record round_nearest_even].
  rewrite H0. cbn [shr shr_record_of_loc shr_m].
  assert ((e <=? emax - prec) = true) as ->; [|done].
  apply Z.leb_le. unfold emax, prec. lia.
Qed.

(* a whole number below 2^53 is a float, exactly *)
Lemma binary_round_exact s p :
  Zpos p < 2 ^ 53 →
  ∃ m e, binary_round prec emax s p 0 = S754_finite s m e ∧
         Z.shiftl (Zpos m) e = Zpos p.
Proof.
  intros Hp. pose proof (digits2_pos_bound p Hp) as Hd.
  unfold binary_round, shl_align.
  assert (fexp prec emax (Zpos (digits2_pos p) + 0) = Zpos (digits2_pos p) - 53) as ->.
  { unfold fexp, emin, prec, emax. lia. }
  destruct (Zpos (digits2_pos p) - 53 - 0) as [|k|k] eqn:Ek; [|lia|].
  - exists p, 0. split; [|done]. apply binary_round_aux_canonical; lia.
  - destruct (iter_xO p k) as [Hv Hdig].
    exists (Pos.iter xO p k), (Zpos (digits2_pos p) - 53). split.
    + apply binary_round_aux_canonical; lia.
    + rewrite Z.shiftl_div_pow2 by lia. rewrite Hv.
      replace (- (Zpos (digits2_pos p) - 53)) with (Zpos k) by lia.
      apply Z.div_mul. apply Z.pow_nonzero; lia.
Qed.

Lemma round_decimal_whole neg v :
  0 ≤ v < 2 ^ 53 →
  int_of_float (round_decimal neg v 0) = Ok (if neg then - v else v).
Proof.
  intros Hv. unfold round_decimal.
  destruct (v <=? 0) eqn:E.
  - apply Z.leb_le in E. assert (v = 0) as -> by lia. by destruct neg.
  - apply Z.leb_gt in E. cbn [Z.leb Z.compare].
    rewrite Z.pow_0_r, Z.mul_1_r.
    destruct v as [|p|p]; try lia. cbn [Z.to_pos].
    destruct (binary_round_exact neg p) as (m & e & -> & Hm); [lia|].
    cbn [int_of_float]. by rewrite Hm.
Qed.

Lemma int_of_float_of_int n :
  - 2 ^ 53 < n < 2 ^ 53 →
  (float_of_int n ≫= int_of_float) = Ok n.
Proof.
  intros Hn. unfold float_of_int, binary_normalize.
  destruct n as [|p|p]; [done| |].
  - destruct (binary_round_exact false p) as (m & e & -> & Hm); [lia|].
    simpl. by rewrite Hm.
  - destruct (binary_round_exact true p) as (m & e & -> & Hm); [lia|].
    simpl. rewrite Hm. done.
Qed.

Lemma decimal_of_nonneg s acc :
  str_forall py_isdigit s = true → 0 ≤ acc → 0 ≤ decimal_of acc s.
Proof.
  revert acc. induction s as [|c r IH]; intros acc; simpl; [done|].
  intros [Hc Hr]%andb_true_iff Hacc. apply IH; [done|].
  destruct (digit_facts c Hc) as (_ & _ & _ & _ & _ & _ & _ & ?). lia.
Qed.

Lemma scan_decimal_all s acc n :
  str_forall py_isdigit s = true →
  scan_decimal acc n s = (decimal_of acc s, n + strlen s, EmptyString).
Proof.
  revert acc n. induction s as [|c r IH]; intros acc n; simpl.
  - intros _. unfold strlen. simpl. by rewrite Z.add_0_r.
  - intros [Hc Hr]%andb_true_iff. rewrite Hc, IH by done.
    unfold strlen. simpl String.length. do 2 f_equal. lia.
Qed.

Lemma rstrip_space_digits s : str_forall py_isdigit s = true → rstrip_space s = s.
Proof.
  induction s as [|c r IH]; simpl; [done|].
  intros [Hc Hr]%andb_true_iff. rewrite IH by done.
  destruct (digit_facts c Hc) as (_ & -> & _). by destruct r.
Qed.

Lemma digits_no_underscore s :
  str_forall py_isdigit s = true → str_forall (λ c, negb (Ascii.eqb c "_")) s = true.
Proof.
  induction s as [|c r IH]; simpl; [done|].
  intros [Hc Hr]%andb_true_iff. rewrite IH by done.
  by destruct (digit_facts c Hc) as (_ & _ & -> & _).
Qed.

Lemma take_sign_digit c r :
  py_isdigit c = true → take_sign (String c r) = (false, String c r).
Proof. intros Hc. destruct c as [[] [] [] [] [] [] [] []]; done. Qed.

Lemma parse_float_whole (neg : bool) ds :
  digits ds = true →
  parse_float ((if neg then "-" else "") +:+ ds) = Ok (round_decimal neg (decimal_of 0 ds) 0).
Proof.
  unfold digits. intros [Hne Hd]%andb_true_iff.
  assert (take_sign ((if neg then "-" else "") +:+ ds) = (neg, ds)) as Hsign.
  { destruct neg; [done|]. destruct ds as [|c r]; [done|].
    simpl in Hd. apply andb_true_iff in Hd as [Hc _]. by apply take_sign_digit. }
  unfold parse_float. rewrite Hsign, scan_decimal_all by done.
  cbn [parse_exponent]. rewrite Z.add_0_l, Z.add_0_r.
  assert ((strlen ds =? 0) = false) as ->.
  { destruct ds; [done|]. apply Z.eqb_neq. unfold strlen. simpl String.length. lia. }
  done.
Qed.

Lemma float_of_str_whole py (neg : bool) ds :
  digits ds = true →
  float_of_str py ((if neg then "-" else "") +:+ ds) =
    Ok (round_decimal neg (decimal_of 0 ds) 0).
Proof.
  intros Hds. pose proof Hds as Hds'. unfold digits in Hds'.
  apply andb_true_iff in Hds' as [Hne Hd].
  unfold float_of_str, to_ascii_text.
  assert (is_ascii ((if neg then "-" else "") +:+ ds) = true) as ->.
  { pose proof (digits_ascii ds Hd). by destruct neg. }
  destruct ds as [|c r]; [done|].
  pose proof Hd as Hd'. simpl in Hd'. apply andb_true_iff in Hd' as [Hc Hr].
  destruct (digit_facts c Hc) as (_ & Hsp & Hus & _).
  destruct neg.
  - change ("-" +:+ String c r) with (String "-" (String c r)).
    cbn [skip_space]. change (py_isspace "-") with false. cbv iota.
    rewrite rstrip_space_digits by done.
    assert (str_forall (λ c0 : ascii, negb (Ascii.eqb c0 "_"))
              (String "-" (String c r)) = true) as ->.
    { change (str_forall (λ c0 : ascii, negb (Ascii.eqb c0 "_")) (String c r) = true).
      by apply digits_no_underscore. }
    by apply (parse_float_whole true).
  - change ("" +:+ String c r) with (String c r).
    cbn [skip_space]. rewrite Hsp. rewrite rstrip_space_digits by done.
    rewrite (digits_no_underscore (String c r)) by done.
    by apply (parse_float_whole false).
Qed.

Section WholeQuantity.

Variable py : interpreter.
Variable cfg : config.
Variable w : world.

(** X16: a whole quantity is returned exactly.  When the reply is accepted
    and its "qty" is a text of decimal digits, with or without a leading
    minus sign, denoting a number below 2^53, get_open_position_qty returns
    exactly that number: the passage through float loses nothing. *)
Theorem whole_quantity_exact symbol tr r (d : gmap string json) (neg : bool) ds :
  http_get w (positions_url cfg symbol) (alpaca_headers cfg) = Ok r →
  raise_for_status r = Ok () →
  json_body r = Some (JDict d) →
  d !! "qty" = Some (JStr ((if neg then "-" else "") +:+ ds)) →
  digits ds = true →
  decimal_of 0 ds < 2 ^ 53 →
  get_open_position_qty py cfg w symbol tr =
    (Ok (if neg then - decimal_of 0 ds else decimal_of 0 ds),
     (tr ++ [HttpGet (positions_url cfg symbol) (alpaca_headers cfg) 20])%list).
Proof.
  intros Hr Hst Hbody Hqty Hds Hlt.
  rewrite get_open_position_qty_eq, Hr. f_equal.
  unfold fetched. unfold raise_for_status in Hst.
  destruct (_ && _); [done|].
  unfold response_json, qty_of_json. rewrite Hbody. simpl. rewrite Hqty. simpl.
  rewrite float_of_str_whole by done. simpl.
  apply round_decimal_whole. split; [|done].
  unfold digits in Hds. apply andb_true_iff in Hds as [_ Hd].
  by apply decimal_of_nonneg.
Qed.

(** X17: when the reply is accepted and its "qty" is a JSON integer n with
    -2^53 < n < 2^53, get_open_position_qty returns n. *)
Theorem integer_quantity_exact symbol tr r (d : gmap string json) n :
  http_get w (positions_url cfg symbol) (alpaca_headers cfg) = Ok r →
  raise_for_status r = Ok () →
  json_body r = Some (JDict d) →
  d !! "qty" = Some (JInt n) →
  - 2 ^ 53 < n < 2 ^ 53 →
  get_open_position_qty py cfg w symbol tr =
    (Ok n, (tr ++ [HttpGet (positions_url cfg symbol) (alpaca_headers cfg) 20])%list).
Proof.
  intros Hr Hst Hbody Hqty Hn.
  rewrite get_open_position_qty_eq, Hr. f_equal.
  unfold fetched. unfold raise_for_status in Hst.
  destruct (_ && _); [done|].
  unfold response_json, qty_of_json. rewrite Hbody. simpl. rewrite Hqty. simpl.
  by apply int_of_float_of_int.
Qed.

End WholeQuantity.

Lemma whole_quantity_exact_witness :
  let cfg := example_config "14:35" "16:00" "DRY_RUN" in
  let d : gmap string json := {[ "qty" := JStr ("-" +:+ "250") ]} in
  let r := {| status_code := 200; json_body := Some (JDict d) |} in
  let w := example_world 15 0 (Ok r) in
  raise_for_status r = Ok () ∧
  digits "250" = true ∧
  decimal_of 0 "250" < 2 ^ 53 ∧
  get_open_position_qty plain cfg w "SPY" [] =
    (Ok (- decimal_of 0 "250"),
     [HttpGet (positions_url cfg "SPY") (alpaca_headers cfg) 20]).
Proof.
  intros cfg d r w. split; [reflexivity|]. split; [reflexivity|]. split; [reflexivity|].
  apply (whole_quantity_exact plain cfg w "SPY" [] r d true "250"); reflexivity.
Defined.

Lemma integer_quantity_exact_witness :
  let cfg := example_config "14:35" "16:00" "DRY_RUN" in
  let d : gmap string json := {[ "qty" := JInt 9007199254740991 ]} in
  let r := {| status_code := 200; json_body := Some (JDict d) |} in
  let w := example_world 15 0 (Ok r) in
  raise_for_status r = Ok () ∧
  - 2 ^ 53 < 9007199254740991 < 2 ^ 53 ∧
  get_open_position_qty plain cfg w "SPY" [] =
    (Ok 9007199254740991,
     [HttpGet (positions_url cfg "SPY") (alpaca_headers cfg) 20]).
Proof.
  intros cfg d r w. split; [reflexivity|]. split; [split; reflexivity|].
  apply (integer_quantity_exact plain cfg w "SPY" [] r d 9007199254740991);
    try reflexivity. split; reflexivity.
Defined.

(** ** Failures of the fetch *)

Lemma fetched_raise py e :
  e ≠ HTTPError (Some 404) → fetched py (Raise e) = Raise e.
Proof.
  intros Hne. unfold fetched.
  destruct e as [| | | |[[|p|p]|]| |]; try done.
  do 9 (try (destruct p as [p|p|]; try done)).
Qed.

Section FetchFailures.

Variable py : interpreter.
Variable cfg : config.
Variable w : world.

(** X14: when requests.get itself raises (connection failure, timeout, or an
    HTTPError that is not a 404 reply) the exception leaves
    get_open_position_qty unchanged, and a run inside the window ends with
    it right after the request: nothing is printed and no mail traffic
    occurs. *)
Theorem request_failure_propagates tr e :
  http_get w (positions_url cfg (SYMBOL cfg)) (alpaca_headers cfg) = Raise e →
  e ≠ HTTPError (Some 404) →
  get_open_position_qty py cfg w (SYMBOL cfg) tr = (Raise e, (tr ++ [fetch_event cfg])%list) ∧
  (in_window_utc py cfg (clock w) = Ok true →
   decide_and_notify py cfg w tr = (Raise e, (tr ++ [fetch_event cfg])%list)).
Proof.
  intros Hr Hne. pose proof (fetched_raise py e Hne) as Hf.
  split.
  - by rewrite get_open_position_qty_eq, Hr, Hf.
  - intros Hin. by rewrite decide_and_notify_inside, Hr, Hf.
Qed.

(** X15: an accepted reply whose body is not as expected is fatal, each kind
    with its own exception, none of them caught: a body that is not JSON
    raises JSONDecodeError; JSON that is not an object raises
    AttributeError; a "qty" that float rejects raises what float raises
    (TypeError for null, a list or an object, ValueError for a text that is
    no number); a "qty" that is a NaN raises ValueError and one that is
    infinite raises OverflowError. *)
Theorem malformed_reply_is_fatal symbol tr r :
  http_get w (positions_url cfg symbol) (alpaca_headers cfg) = Ok r →
  raise_for_status r = Ok () →
  let result := (get_open_position_qty py cfg w symbol tr).1 in
  (json_body r = None → result = Raise JSONDecodeError) ∧
  (∀ v, json_body r = Some v → (∀ d, v ≠ JDict d) → result = Raise AttributeError) ∧
  (∀ d x, json_body r = Some (JDict d) → d !! "qty" = Some x →
     (x = JNull ∨ (∃ l, x = JList l) ∨ (∃ d', x = JDict d') → result = Raise TypeError) ∧
     (∀ s e, x = JStr s → float_of_str py s = Raise e → result = Raise ValueError) ∧
     (py_float py x = Ok S754_nan → result = Raise ValueError) ∧
     (∀ sg, py_float py x = Ok (S754_infinity sg) → result = Raise OverflowError)).
Proof.
  intros Hr Hst result. unfold result.
  rewrite get_open_position_qty_eq, Hr. cbn [fst].
  unfold fetched. unfold raise_for_status in Hst.
  destruct (_ && _); [done|].
  unfold response_json, qty_of_json.
  split; [by intros ->|]. split.
  - intros v -> Hv. destruct v; try done. by destruct (Hv d).
  - intros d x -> Hx. simpl. rewrite Hx. simpl.
    split; [|split; [|split]].
    + intros [->|[[l ->]|[d' ->]]]; done.
    + intros s e -> He. simpl. apply float_of_str_raises in He as Hv. subst e.
      by rewrite He.
    + by intros ->.
    + by intros sg ->.
Qed.

End FetchFailures.

Lemma request_failure_propagates_witness :
  let cfg := example_config "14:35" "16:00" "DRY_RUN" in
  let w := example_world 15 40 (Raise (OtherError "ConnectionError")) in
  http_get w (positions_url cfg (SYMBOL cfg)) (alpaca_headers cfg) =
    Raise (OtherError "ConnectionError") ∧
  in_window_utc plain cfg (clock w) = Ok true ∧
  decide_and_notify plain cfg w [] = (Raise (OtherError "ConnectionError"), [fetch_event cfg]).
Proof.
  intros cfg w. split; [reflexivity|]. split; [reflexivity|].
  apply (request_failure_propagates plain cfg w [] (OtherError "ConnectionError"));
    [reflexivity | discriminate | reflexivity].
Defined.

Lemma malformed_reply_is_fatal_witness :
  let cfg := example_config "14:35" "16:00" "DRY_RUN" in
  let d : gmap string json := {[ "qty" := JStr "five" ]} in
  let r := {| status_code := 200; json_body := Some (JDict d) |} in
  let w := example_world 15 40 (Ok r) in
  raise_for_status r = Ok () ∧
  float_of_str plain "five" = Raise ValueError ∧
  (get_open_position_qty plain cfg w "SPY" []).1 = Raise ValueError.
Proof.
  intros cfg d r w. split; [reflexivity|]. split; [reflexivity|].
  pose proof (malformed_reply_is_fatal plain cfg w "SPY" [] r eq_refl eq_refl)
    as (_ & _ & H).
  destruct (H d (JStr "five") eq_refl eq_refl) as (_ & Hs & _).
  apply (Hs "five" ValueError); reflexivity.
Defined.

(** ** Configuration *)

(** X12: a numeric setting that int rejects stops the script while it loads:
    when SMTP_PORT or MAX_TRADES_PER_DAY is set to a text that is no integer
    (the empty text included) the run ends with ValueError before the clock
    is read: nothing is printed, requested or sent. *)
Theorem bad_numeric_setting_aborts py (env : gmap string string) w :
  ¬ is_Ok (py_int py (getenv env "SMTP_PORT" "587")) ∨
  ¬ is_Ok (py_int py (getenv env "MAX_TRADES_PER_DAY" "1")) →
  main py env w = (Raise ValueError, []).
Proof.
  intros H. unfold main, load_config.
  destruct (py_int py (getenv env "SMTP_PORT" "587")) as [port|e] eqn:Ep; simpl.
  - destruct (py_int py (getenv env "MAX_TRADES_PER_DAY" "1")) as [n|e] eqn:En; simpl.
    + destruct H as [H|H]; destruct H; by eexists.
    + apply py_int_raises in En. by subst e.
  - apply py_int_raises in Ep. by subst e.
Qed.

Lemma bad_numeric_setting_aborts_witness :
  let env : gmap string string := {[ "MAX_TRADES_PER_DAY" := "" ]} in
  let w := example_world 15 40 (Ok {| status_code := 404; json_body := None |}) in
  main plain env w = (Raise ValueError, []).
Proof.
  intros env w. apply (bad_numeric_setting_aborts plain env w).
  right. intros [n Hn]. discriminate Hn.
Defined.

Lemma rstrip_app_same ch s :
  rstrip ch (s +:+ String ch EmptyString) = rstrip ch s.
Proof.
  induction s as [|c r IH].
  - simpl. by rewrite Ascii.eqb_refl.
  - change (String c r +:+ String ch EmptyString) with (String c (r +:+ String ch EmptyString)).
    simpl. by rewrite IH.
Qed.

(** X13: trailing slashes of ALPACA_BASE_URL do not matter.  With one more
    "/" at the end of the base URL the script requests the same URL and so
    obtains the same result with the same trace. *)
Theorem base_url_trailing_slash py cfg w symbol tr url :
  get_open_position_qty py (set_base_url cfg (url +:+ "/")) w symbol tr =
  get_open_position_qty py (set_base_url cfg url) w symbol tr.
Proof.
  rewrite !get_open_position_qty_eq. unfold positions_url, set_base_url. simpl.
  by rewrite (rstrip_app_same "/" url).
Qed.

Lemma py_upper_dry_run_witness :
  is_ascii "Dry_Run" = true ∧
  (py_upper plain "Dry_Run" = "DRY_RUN" ↔ eq_ignore_case "Dry_Run" "DRY_RUN" = true).
Proof.
  split; [reflexivity|]. apply (py_upper_dry_run plain "Dry_Run"). reflexivity.
Defined.

Lemma getenv_insert_other (env : gmap string string) name value k dflt :
  name ≠ k → getenv (<[name:=value]> env) k dflt = getenv env k dflt.
Proof. intros Hne. unfold getenv. by rewrite lookup_insert_ne. Qed.

Lemma getenv_insert_default (env : gmap string string) name dflt :
  env !! name = None → getenv (<[name:=dflt]> env) name dflt = getenv env name dflt.
Proof. intros Hn. unfold getenv. by rewrite lookup_insert_eq, Hn. Qed.

(** X19: leaving a variable unset is the same as setting it to its default.
    For each of the fourteen variables the script reads, a run in an
    environment where it is unset has the same result and trace as a run
    where it is set to the default given to os.getenv; in particular an
    unset mail setting behaves as an empty one. *)
Theorem unset_is_default py (env : gmap string string) w name dflt :
  In (name, dflt) defaults →
  env !! name = None →
  main py (<[name:=dflt]> env) w = main py env w.
Proof.
  intros Hin Hnone. unfold main.
  assert (load_config py (<[name:=dflt]> env) = load_config py env) as ->; [|done].
  unfold load_config. simpl in Hin.
  repeat (destruct Hin as [[= <- <-]|Hin];
          [rewrite getenv_insert_default by done;
           rewrite !getenv_insert_other by done; reflexivity|]).
  destruct Hin.
Qed.

Lemma unset_is_default_witness :
  let env : gmap string string := {[ "SYMBOL" := "QQQ" ]} in
  let w := example_world 15 40 (Ok {| status_code := 404; json_body := None |}) in
  In ("MODE", "DRY_RUN") defaults ∧
  env !! "MODE" = None ∧
  main plain (<["MODE":="DRY_RUN"]> env) w = main plain env w.
Proof.
  intros env w. split; [simpl; auto 20|]. split; [reflexivity|].
  apply (unset_is_default plain env w "MODE" "DRY_RUN"); [simpl; auto 20 | reflexivity].
Defined.
